(** * parfun: partition generators and the parallel-execution controller

    A shallow embedding of [parfun/partition/dataframe.py] and of
    [parafun/kernel/parallel_function.py].

    Python integers are unbounded and are modelled by [Z]; a dataframe is
    the list of its rows; a generator is the state machine of its
    suspension points, resumed by [next] and [send]. *)

From Stdlib Require Import ZArith Lia Bool.
From stdpp Require Import base list gmap strings.

Local Open Scope Z_scope.

(** ** Python exceptions *)

Inductive exception : Type :=
| ValueError (msg : string)
| TypeError (msg : string)
| KeyError (msg : string).

(** What a call produces: the value it returns or the exception it raises. *)
Inductive outcome (R : Type) : Type :=
| Returned (r : R)
| Raised (e : exception).

Arguments Returned {R} r.
Arguments Raised {R} e.

(** ** Generators

    Resuming a suspended generator either reaches the next [yield],
    returns (StopIteration), or lets an exception escape. *)

Inductive resumed (S Y : Type) : Type :=
| Yields (y : Y) (s : S)
| Stops
| Raises (e : exception).

Arguments Yields {S Y} y s.
Arguments Stops {S Y}.
Arguments Raises {S Y} e.

(** How a run of a partition generator ends: the generator returned, the
    consumer stopped asking while the generator was still suspended, or an
    exception escaped. *)
Inductive ending : Type :=
| Exhausted
| Pending
| Failed (e : exception).

Record partition (P : Type) : Type := Partition {
  requested_size : Z;
  actual_size : Z;
  payload : P
}.

Arguments Partition {P} _ _ _.
Arguments requested_size {P} _.
Arguments actual_size {P} _.
Arguments payload {P} _.

Section Driver.
Context {G P : Type}.

(** A generator object is resumed by [gen.send(v)]; [next(gen)] is
    [gen.send(None)].  The priming [yield] carries no value, the others
    carry a pair [(actual_size, payload)]. *)
Variable gen_send : G -> option Z -> resumed G (option (Z * P)).

(** Modelled from the spec: the consumer of a partition generator (the
    driving loop of section 4.2; [timed_partition] is not part of the
    sources).  After the priming step it sends the requested sizes one by
    one and collects every yielded partition until end-of-stream. *)
Fixpoint send_all (g : G) (sizes : list Z) : list (partition P) * ending :=
  match sizes with
  | [] => ([], Pending)
  | size :: rest =>
      match gen_send g (Some size) with
      | Yields (Some (actual, p)) g' =>
          let '(ps, e) := send_all g' rest in
          (Partition size actual p :: ps, e)
      | Yields None _ =>
          ([], Failed (TypeError "cannot unpack non-iterable NoneType object"))
      | Stops => ([], Exhausted)
      | Raises e => ([], Failed e)
      end
  end.

Definition drive (g : G) (sizes : list Z) : list (partition P) * ending :=
  match gen_send g None with
  | Yields _ g' => send_all g' sizes
  | Stops => ([], Exhausted)
  | Raises e => ([], Failed e)
  end.
End Driver.

(** A record emitted through [logging]. *)
Inductive log_record : Type :=
| Debug (msg : string)
| Info (msg : string)
| Warning (msg : string).

(** ** [parfun/partition/dataframe.py] *)

Module Dataframe.

Section Rows.
Context {Row : Type}.

(** A Python value handed to a partitioner: a [pd.DataFrame] (the list of
    its rows) or an object of another type. *)
Inductive value : Type :=
| DataFrame (rows : list Row)
| NotDataFrame.

Definition isinstance_DataFrame (v : value) : bool :=
  match v with DataFrame _ => true | NotDataFrame => false end.

(** [df.shape[0]]; only evaluated on dataframes. *)
Definition shape0 (v : value) : Z :=
  match v with
  | DataFrame rows => Z.of_nat (length rows)
  | NotDataFrame => 0
  end.

(** A bound of a Python slice, clamped into [0, len]. *)
Definition slice_index (len i : Z) : Z :=
  if i <? 0 then Z.max 0 (i + len) else Z.min i len.

Definition slice (rows : list Row) (start stop : Z) : list Row :=
  let len := Z.of_nat (length rows) in
  let a := slice_index len start in
  let b := slice_index len stop in
  take (Z.to_nat (b - a)) (drop (Z.to_nat a) rows).

(** [df.iloc[start:stop]] *)
Definition iloc (v : value) (start stop : Z) : value :=
  match v with
  | DataFrame rows => DataFrame (slice rows start stop)
  | NotDataFrame => NotDataFrame
  end.

Definition rows_of (v : value) : list Row :=
  match v with DataFrame rows => rows | NotDataFrame => [] end.

(** [pd.concat(chunked_dfs)] on a list of dataframes. *)
Definition pd_concat (chunked_dfs : list value) : value :=
  DataFrame (concat (rows_of <$> chunked_dfs)).

Definition __validate_dfs_parameter (dfs : list value) : option exception :=
  if Z.of_nat (length dfs) <? 1 then
    Some (ValueError "missing `dfs` parameter.")
  else if existsb (fun df => negb (isinstance_DataFrame df)) dfs then
    Some (ValueError "all `dfs` values should be DataFrame instances.")
  else
    let total_size := shape0 (hd NotDataFrame dfs) in
    if existsb (fun df => negb (shape0 df =? total_size)) (tl dfs) then
      Some (ValueError "all DataFrames should have the same number of rows.")
    else None.

(** *** [df_by_row] *)

(** The suspension points of [df_by_row]: not started, at the priming
    [yield], at the [yield] of the loop (with the live [range_start] and
    [range_end]), and at the final [yield]. *)
Inductive row_state : Type :=
| RowCreated
| RowPrimed
| RowInLoop (range_start range_end : Z)
| RowAtTail.

(** The generator object: the captured [dfs] and the suspension point. *)
Record row_generator : Type := RowGenerator {
  row_dfs : list value;
  row_state_of : row_state
}.

(** Calling [df_by_row] only creates the generator; nothing runs before
    the first [next]. *)
Definition df_by_row (dfs : list value) : row_generator :=
  RowGenerator dfs RowCreated.

Definition dfs_chunk (dfs : list value) (rng_start rng_end : Z) : list value :=
  (fun df => iloc df rng_start rng_end) <$> dfs.

(** The loop test and what follows it, entered with the locals
    [range_start], [range_end] and [chunk_size]. *)
Definition df_by_row_loop (dfs : list value)
    (range_start range_end chunk_size : Z)
  : resumed row_generator (option (Z * list value)) :=
  let total_size := shape0 (hd NotDataFrame dfs) in
  if range_end <? total_size then
    Yields (Some (chunk_size, dfs_chunk dfs range_start range_end))
           (RowGenerator dfs (RowInLoop range_start range_end))
  else if range_start <? total_size then
    Yields (Some (total_size - range_start,
                  dfs_chunk dfs range_start total_size))
           (RowGenerator dfs RowAtTail)
  else Stops.

Definition df_by_row_send (g : row_generator) (sent : option Z)
  : resumed row_generator (option (Z * list value)) :=
  let dfs := row_dfs g in
  match row_state_of g, sent with
  | RowCreated, None =>
      match __validate_dfs_parameter dfs with
      | Some e => Raises e
      | None => Yields None (RowGenerator dfs RowPrimed)
      end
  | RowCreated, Some _ =>
      Raises (TypeError "can't send non-None value to a just-started generator")
  | RowPrimed, Some chunk_size =>
      df_by_row_loop dfs 0 chunk_size chunk_size
  | RowPrimed, None =>
      Raises (TypeError "'<' not supported between instances of 'NoneType' and 'int'")
  | RowInLoop _ range_end, Some chunk_size =>
      df_by_row_loop dfs range_end (range_end + chunk_size) chunk_size
  | RowInLoop _ _, None =>
      Raises (TypeError "unsupported operand type(s) for +=: 'int' and 'NoneType'")
  | RowAtTail, _ => Stops
  end.

(** Where a suspended [df_by_row] stands in the rows: the index of the
    first row it has not yielded yet. *)
Definition row_position (n : Z) (st : row_state) (pos : Z) : Prop :=
  match st with
  | RowCreated => False
  | RowPrimed => pos = 0
  | RowInLoop _ range_end => pos = range_end /\ range_end < n
  | RowAtTail => pos = n
  end.

(** *** [df_by_group] *)

(** [df.groupby( *args, **kwargs)]: the groups in iteration order.  The
    grouping is pandas', so it is a parameter of the development. *)
Context {GroupBy : Type}.
Variable groupby : GroupBy -> list Row -> list (list Row).

(** [zip( *iterables)]: tuples of the i-th elements, as long as every
    iterable has one. *)
Fixpoint zip_star_upto {A} (n : nat) (ls : list (list A)) : list (list A) :=
  match n with
  | O => []
  | S n' =>
      match mapM head ls with
      | Some hs => hs :: zip_star_upto n' (tail <$> ls)
      | None => []
      end
  end.

Definition zip_star {A} (ls : list (list A)) : list (list A) :=
  match ls with
  | [] => []
  | l :: _ => zip_star_upto (length l) ls
  end.

(** The suspension points of the generator of [df_by_group]; [it] is what
    is left of the iterator over the zipped groups. *)
Inductive group_state : Type :=
| GroupCreated
| GroupPrimed (it : list (list value))
| GroupInLoop (it : list (list value))
| GroupAtTail.

Record group_generator : Type := GroupGenerator {
  group_by : GroupBy;
  group_dfs : list value;
  group_state_of : group_state
}.

Definition df_by_group (by_ : GroupBy) (dfs : list value) : group_generator :=
  GroupGenerator by_ dfs GroupCreated.

Definition concat_chunked_group_dfs (chunked_group : list (list value))
  : list value :=
  pd_concat <$> chunked_group.

(** [tuple([] for _ in range(0, len(dfs)))] *)
Definition fresh_chunked_group (dfs : list value) : list (list value) :=
  replicate (length dfs) [].

(** The [while True] loop, entered with the locals [it], [chunked_group],
    [chunked_group_size] and [target_chunk_size] (None after a bare
    [next]). *)
Fixpoint df_by_group_loop (by_ : GroupBy) (dfs : list value)
    (it : list (list value)) (chunked_group : list (list value))
    (chunked_group_size : Z) (target_chunk_size : option Z)
  : resumed group_generator (option (Z * list value)) :=
  match it with
  | [] =>
      if chunked_group_size >? 0 then
        Yields (Some (chunked_group_size,
                      concat_chunked_group_dfs chunked_group))
               (GroupGenerator by_ dfs GroupAtTail)
      else Stops
  | group :: it' =>
      let group_size := shape0 (hd NotDataFrame group) in
      if existsb (fun group_df => negb (shape0 group_df =? group_size))
                 (tl group) then
        Raises (ValueError "all dataframe group sizes should be identical.")
      else
        let chunked_group_size := chunked_group_size + group_size in
        let chunked_group :=
          zip_with (fun chunked_dfs group_df => chunked_dfs ++ [group_df])
                   chunked_group group in
        match target_chunk_size with
        | None =>
            Raises (TypeError "'>=' not supported between instances of 'int' and 'NoneType'")
        | Some target =>
            if chunked_group_size >=? target then
              Yields (Some (chunked_group_size,
                            concat_chunked_group_dfs chunked_group))
                     (GroupGenerator by_ dfs (GroupInLoop it'))
            else
              df_by_group_loop by_ dfs it' chunked_group
                               chunked_group_size target_chunk_size
        end
  end.

Definition df_by_group_send (g : group_generator) (sent : option Z)
  : resumed group_generator (option (Z * list value)) :=
  let by_ := group_by g in
  let dfs := group_dfs g in
  match group_state_of g, sent with
  | GroupCreated, None =>
      match __validate_dfs_parameter dfs with
      | Some e => Raises e
      | None =>
          let groups :=
            zip_star ((fun df => DataFrame <$> groupby by_ (rows_of df)) <$> dfs) in
          Yields None (GroupGenerator by_ dfs (GroupPrimed groups))
      end
  | GroupCreated, Some _ =>
      Raises (TypeError "can't send non-None value to a just-started generator")
  | GroupPrimed it, _ =>
      df_by_group_loop by_ dfs it (fresh_chunked_group dfs) 0 sent
  | GroupInLoop it, _ =>
      df_by_group_loop by_ dfs it (fresh_chunked_group dfs) 0 sent
  | GroupAtTail, _ => Stops
  end.

(** Every group still to come has at most [m] rows. *)
Definition groups_within (m : nat) (g : group_generator) : Prop :=
  match group_state_of g with
  | GroupPrimed it | GroupInLoop it =>
      Forall (fun group => shape0 (hd NotDataFrame group) <= Z.of_nat m) it
  | _ => True
  end.

(** *** Deprecated names *)

Definition dfs_by_row (dfs : list value) : list log_record * row_generator :=
  ([Warning "`dfs_by_row` will be removed in a future version, use `df_by_row` instead."],
   df_by_row dfs).

Definition partition_dfs_by_chunk (dfs : list value)
  : list log_record * row_generator :=
  ([Warning "`partition_dfs_by_chunk` will be removed in a future version, use `df_by_row` instead."],
   df_by_row dfs).

Definition dfs_by_group (by_ : GroupBy)
  : list log_record * (list value -> group_generator) :=
  ([Warning "`dfs_by_group` will be removed in a future version, use `df_by_group` instead."],
   df_by_group by_).

(** *** Running the generators *)

Definition partitions_by_row (dfs : list value) (sizes : list Z)
  : list (partition (list value)) * ending :=
  drive df_by_row_send (df_by_row dfs) sizes.

Definition partitions_by_group (by_ : GroupBy) (dfs : list value)
    (sizes : list Z)
  : list (partition (list value)) * ending :=
  drive df_by_group_send (df_by_group by_ dfs) sizes.

(** The sum of the yielded [actual_size]s. *)
Definition total_actual_size (parts : list (partition (list value))) : Z :=
  foldr (fun p acc => actual_size p + acc) 0 parts.

(** The slices of the [j]-th dataframe, in the order they were yielded. *)
Definition column (j : nat) (parts : list (partition (list value)))
  : list value :=
  (fun p => nth j (payload p) NotDataFrame) <$> parts.

(** [n]-row dataframes, at least one of them: the inputs that
    [__validate_dfs_parameter] accepts. *)
Definition co_partitioned (n : nat) (dfs : list value) : Prop :=
  dfs <> [] /\
  Forall (fun df => exists rows, df = DataFrame rows /\ length rows = n) dfs.

End Rows.

Arguments value : clear implicits.
Arguments row_generator : clear implicits.
Arguments group_generator : clear implicits.

(** A concrete grouping for the examples: rows are [(key, data)] pairs and
    [df.groupby("key")] yields, by ascending key, the rows that carry it. *)
Fixpoint insert_key (k : Z) (ks : list Z) : list Z :=
  match ks with
  | [] => [k]
  | k' :: ks' =>
      if k <? k' then k :: ks
      else if k =? k' then ks
      else k' :: insert_key k ks'
  end.

Definition sorted_keys (rows : list (Z * Z)) : list Z :=
  foldr insert_key [] (fst <$> rows).

Definition groupby_key (_ : unit) (rows : list (Z * Z)) : list (list (Z * Z)) :=
  (fun k => filter (fun row => row.1 = k) rows) <$> sorted_keys rows.

(** Two co-partitioned dataframes of seven rows, and one of eight. *)
Definition seven_rows : value Z := DataFrame [10; 11; 12; 13; 14; 15; 16].
Definition seven_squares : value Z := DataFrame [0; 1; 4; 9; 16; 25; 36].
Definition eight_rows : value Z := DataFrame [20; 21; 22; 23; 24; 25; 26; 27].

(** A dataframe whose key 1 is carried by two rows. *)
Definition two_rows_one_key : value (Z * Z) := DataFrame [(1, 10); (1, 11)].

End Dataframe.

(** ** [parafun/kernel/parallel_function.py] *)

Module ParallelFunction.

(** [inspect.Parameter.kind] *)
Inductive ParameterKind : Type :=
| POSITIONAL_ONLY
| POSITIONAL_OR_KEYWORD
| VAR_POSITIONAL
| KEYWORD_ONLY
| VAR_KEYWORD.

Definition ParameterKind_eqb (a b : ParameterKind) : bool :=
  match a, b with
  | POSITIONAL_ONLY, POSITIONAL_ONLY
  | POSITIONAL_OR_KEYWORD, POSITIONAL_OR_KEYWORD
  | VAR_POSITIONAL, VAR_POSITIONAL
  | KEYWORD_ONLY, KEYWORD_ONLY
  | VAR_KEYWORD, VAR_KEYWORD => true
  | _, _ => false
  end.

(** [inspect.Parameter] *)
Record inspect_Parameter : Type := {
  name : string;
  kind : ParameterKind
}.

(** [FunctionSignature], as far as this module reads it: the ordered
    mapping [args] and the two flags.  The class itself
    ([parafun.kernel.function_signature]) is not part of the sources. *)
Record FunctionSignature : Type := {
  args : list (string * inspect_Parameter);
  has_var_arg : bool;
  has_var_kwarg : bool
}.

(** A frame of the call stack, as [is_nested_parallelism] reads it. *)
Record Frame : Type := {
  co_name : string;
  co_filename : string
}.

Definition location : Type := nat.

Section Controller.
(** Argument values, what the user function returns, the state of a
    partition-size estimator, backends, and the objects exchanged with
    the splitter. *)
Context {V R Estimator Backend : Type}.
Context {Combine Split PartitionWith NamedArguments Generator Preloaded : Type}.

(** The arguments of a call: [*args] and [**kwargs]. *)
Record Args : Type := {
  positional : list V;
  keywords : list (string * V)
}.

(** A user function: what calling it gives, its [__name__], and the
    signature [FunctionSignature.from_function] reads off it. *)
Record Function : Type := {
  fn_call : Args -> outcome R;
  fn_name : string;
  fn_signature : FunctionSignature
}.

(** A value passed as [initial_partition_size] or [fixed_partition_size]. *)
Inductive size_argument : Type :=
| SizeInt (n : Z)
| SizeCallable (f : Args -> outcome Z)
| SizeOther.

Definition is_callable (v : size_argument) : bool :=
  match v with SizeCallable _ => true | _ => false end.

Definition is_int (v : size_argument) : bool :=
  match v with SizeInt _ => true | _ => false end.

(** The estimators live in a store; an object holds a location. *)
Definition store : Type := list Estimator.

Definition allocate (h : store) (e : Estimator) : store * location :=
  (h ++ [e], length h).

Record ParallelFunction : Type := {
  function : Function;
  combine_with : Combine;
  split : option Split;
  function_name : option string;
  initial_partition_size : option size_argument;
  fixed_partition_size : option size_argument;
  profile : bool;
  trace_export : option string;
  partition_size_estimator_factory : unit -> Estimator;
  _partition_size_estimator : option location;
  _function_signature : FunctionSignature
}.

(** The arguments of [ParallelFunction(...)]. *)
Record InitArguments : Type := {
  init_function : Function;
  init_combine_with : Combine;
  init_function_name : option string;
  init_profile : bool;
  init_trace_export : option string;
  init_partition_size_estimator_factory : unit -> Estimator;
  init_split : option Split;
  init_partition_on : option (string + list string);
  init_partition_with : option PartitionWith;
  init_initial_partition_size : option size_argument;
  init_fixed_partition_size : option size_argument
}.

(** Collaborators that are not part of the sources. *)
Variable __file__ : string.
Variable allows_nested_tasks : Backend -> bool.
Variable multiple_arguments : list string -> PartitionWith -> Split.
Variable assign : FunctionSignature -> Args -> exception + NamedArguments.
Variable call_split :
  Split -> NamedArguments -> exception + (NamedArguments * Generator).

(** Opening the backend session and [backend_session.preload_value]. *)
Variable preload_value : Backend -> NamedArguments -> exception + Preloaded.

(** The rest of the session of [__call__]: [timed_partition],
    [parallel_timed_map] over [apply_function], [timed_combine_with] and
    the reporting that follows.  It receives the estimator as the
    location the object holds, and works on the store. *)
Variable scatter_gather :
  ParallelFunction ->
  Backend (* current_backend *) -> option Backend (* nested_backend *) ->
  Preloaded (* preloaded_non_partitioned_args *) ->
  Generator (* partition_generator *) ->
  option location (* self._partition_size_estimator *) ->
  option size_argument (* initial_partition_size *) ->
  option size_argument (* fixed_partition_size *) ->
  store -> store * list log_record * outcome R.

Definition is_None {A} (x : option A) : bool :=
  match x with None => true | Some _ => false end.

Definition _partition_size_validator (attribute_name : string)
    (value : option size_argument) : option exception :=
  match value with
  | None => None
  | Some v =>
      if negb (is_int v) && negb (is_callable v) then
        Some (ValueError ("`" +:+ attribute_name +:+
                          "` should be either an integer, a callable or `None`."))
      else None
  end.

Definition _validate_function_signature (signature : FunctionSignature)
  : option exception :=
  if has_var_arg signature || has_var_kwarg signature then None
  else if existsb (fun arg => ParameterKind_eqb (kind arg.2) POSITIONAL_ONLY)
                  (args signature) then
    Some (ValueError "parafun toolkit does not support positional only parameters yet.")
  else None.

Definition _legacy_partition_with (partition_on : list string)
    (partition_with : PartitionWith) : Split :=
  multiple_arguments partition_on partition_with.

Definition lookup_keyword (kwargs : list (string * V)) (arg_name : string)
  : option V :=
  snd <$> List.find (fun kv => String.eqb kv.1 arg_name) kwargs.

Definition _legacy_partition_size (partition_on : list string)
    (partition_size : option size_argument) : option size_argument :=
  match partition_size with
  | Some (SizeCallable f) =>
      let legacy_partition_size (a : Args) : outcome Z :=
        match positional a with
        | _ :: _ =>
            Raised (TypeError "legacy_partition_size() takes 0 positional arguments")
        | [] =>
            match mapM (lookup_keyword (keywords a)) partition_on with
            | Some partition_args =>
                f {| positional := partition_args; keywords := [] |}
            | None => Raised (KeyError "partition_on")
            end
        end in
      Some (SizeCallable legacy_partition_size)
  | _ => partition_size
  end.

(** [ParallelFunction.__init__]: the constructed object, or the exception
    that escapes, and the store (the factory allocates an estimator). *)
Definition __init__ (a : InitArguments) (h : store)
  : store * (exception + ParallelFunction) :=
  if negb (Bool.eqb (is_None (init_partition_on a))
                    (is_None (init_partition_with a))) then
    (h, inl (ValueError "`partition_on` and `partition_with` should be both simultaneously set or None."))
  else
    let legacy : exception +
        (option Split * option size_argument * option size_argument) :=
      match init_partition_on a, init_partition_with a with
      | Some partition_on, Some partition_with =>
          match init_split a with
          | Some _ =>
              inl (ValueError "`split` cannot be set with `partition_on` or `partition_with`.")
          | None =>
              let partition_on :=
                match partition_on with
                | inl one => [one]
                | inr several => several
                end in
              inr (Some (_legacy_partition_with partition_on partition_with),
                   _legacy_partition_size partition_on (init_initial_partition_size a),
                   _legacy_partition_size partition_on (init_fixed_partition_size a))
          end
      | _, _ =>
          inr (init_split a, init_initial_partition_size a,
               init_fixed_partition_size a)
      end in
    match legacy with
    | inl e => (h, inl e)
    | inr (split, initial_partition_size, fixed_partition_size) =>
        (* __attrs_init__ and its validators *)
        match _partition_size_validator "initial_partition_size" initial_partition_size with
        | Some e => (h, inl e)
        | None =>
        match _partition_size_validator "fixed_partition_size" fixed_partition_size with
        | Some e => (h, inl e)
        | None =>
            let signature := fn_signature (init_function a) in
            if negb (is_None initial_partition_size) &&
               negb (is_None fixed_partition_size) then
              (h, inl (ValueError "`initial_partition_size` and `fixed_partition_size` cannot be set simultaneously."))
            else
              let '(h', estimator) :=
                match fixed_partition_size with
                | None =>
                    let '(h', l) :=
                      allocate h (init_partition_size_estimator_factory a tt) in
                    (h', Some l)
                | Some _ => (h, None)
                end in
              match _validate_function_signature signature with
              | Some e => (h', inl e)
              | None =>
                  (h', inr {|
                    function := init_function a;
                    combine_with := init_combine_with a;
                    split := split;
                    function_name := init_function_name a;
                    initial_partition_size := initial_partition_size;
                    fixed_partition_size := fixed_partition_size;
                    profile := init_profile a;
                    trace_export := init_trace_export a;
                    partition_size_estimator_factory :=
                      init_partition_size_estimator_factory a;
                    _partition_size_estimator := estimator;
                    _function_signature := signature
                  |})
              end
        end
        end
    end.

Definition user_partition_size (size : option size_argument) (a : Args)
  : outcome (option size_argument) :=
  match size with
  | Some (SizeCallable f) =>
      match f a with
      | Returned n => Returned (Some (SizeInt n))
      | Raised e => Raised e
      end
  | _ => Returned size
  end.

Definition _get_user_partition_sizes (self : ParallelFunction) (a : Args)
  : outcome (option size_argument * option size_argument) :=
  match user_partition_size (initial_partition_size self) a with
  | Raised e => Raised e
  | Returned initial_partition_size =>
      match user_partition_size (fixed_partition_size self) a with
      | Raised e => Raised e
      | Returned fixed_partition_size =>
          Returned (initial_partition_size, fixed_partition_size)
      end
  end.

(** [is_nested_parallelism], on the stack of frames from [currentframe()]
    outwards. *)
Fixpoint is_nested_parallelism (frame : list Frame) : bool :=
  match frame with
  | [] => false
  | f :: f_back =>
      if String.eqb (co_name f) "apply_function" &&
         String.eqb (co_filename f) __file__ then true
      else is_nested_parallelism f_back
  end.

(** The ambient state a call runs in: the backend that
    [get_parallel_backend()] returns and the frames of the callers. *)
Record Ambient : Type := {
  parallel_backend : option Backend;
  callers : list Frame
}.

(** [str(x)] for an optional string. *)
Definition str_optional (x : option string) : string :=
  match x with Some s => s | None => "None" end.

Definition __call__ (self : ParallelFunction) (env : Ambient) (a : Args)
    (h : store) : store * list log_record * outcome R :=
  let current_backend := parallel_backend env in
  let allows_nested_tasks :=
    match current_backend with
    | Some b => allows_nested_tasks b
    | None => false
    end in
  let frames :=
    {| co_name := "is_nested_parallelism"; co_filename := __file__ |} ::
    {| co_name := "__call__"; co_filename := __file__ |} :: callers env in
  if is_nested_parallelism frames && negb allows_nested_tasks then
    (h,
     [Debug ("backend does not support nested parallelism. Running " +:+
             fn_name (function self) +:+ " sequentially.")],
     fn_call (function self) a)
  else
    match current_backend with
    | None =>
        (h,
         [Warning ("no parallel backend engine set, run `" +:+
                   str_optional (function_name self) +:+
                   "(...)` sequentially.")],
         fn_call (function self) a)
    | Some current_backend =>
        match assign (_function_signature self) a with
        | inl e => (h, [], Raised e)
        | inr named_args =>
            match
              match split self with
              | Some split => call_split split named_args
              | None => inl (TypeError "'NoneType' object is not callable")
              end
            with
            | inl e => (h, [], Raised e)
            | inr (non_partitioned_args, partition_generator) =>
                match preload_value current_backend non_partitioned_args with
                | inl e => (h, [], Raised e)
                | inr preloaded_non_partitioned_args =>
                    match _get_user_partition_sizes self a with
                    | Raised e => (h, [], Raised e)
                    | Returned (initial_partition_size, fixed_partition_size) =>
                        let nested_backend :=
                          if allows_nested_tasks then Some current_backend
                          else None in
                        scatter_gather self current_backend nested_backend
                          preloaded_non_partitioned_args partition_generator
                          (_partition_size_estimator self)
                          initial_partition_size fixed_partition_size h
                    end
                end
            end
        end
    end.

End Controller.

Arguments Args : clear implicits.
Arguments Function : clear implicits.
Arguments size_argument : clear implicits.
Arguments ParallelFunction : clear implicits.
Arguments InitArguments : clear implicits.
Arguments Ambient : clear implicits.

(** *** A concrete controller for the examples

    Argument values and results are integers, a backend is the answer of
    its [allows_nested_tasks()], an estimator is the list of the partition
    sizes it has observed, and a partition generator is the list of the
    partitions it will deliver. *)

Definition module_file : string := "parafun/kernel/parallel_function.py".

Definition sum_values (values : list Z) : Z := foldr Z.add 0 values.

(** [LinearRegessionEstimator()]: nothing observed yet. *)
Definition new_estimator (_ : unit) : list Z := [].

Definition pass_arguments (_ : FunctionSignature) (a : Args Z)
  : exception + Args Z := inr a.

(** A splitter that makes one partition of each positional value and leaves
    the keyword arguments unpartitioned. *)
Definition split_each_value (_ : unit) (named_args : Args Z)
  : exception + (Args Z * list (list Z)) :=
  inr ({| positional := []; keywords := keywords named_args |},
       (fun v => [v]) <$> positional named_args).

Definition preload_arguments (_ : bool) (non_partitioned_args : Args Z)
  : exception + Args Z :=
  inr non_partitioned_args.

(** Summing the results, up to the first task that raised. *)
Fixpoint combine_sum (results : list (outcome Z)) : outcome Z :=
  match results with
  | [] => Returned 0
  | Raised e :: _ => Raised e
  | Returned r :: rest =>
      match combine_sum rest with
      | Returned t => Returned (r + t)
      | Raised e => Raised e
      end
  end.

(** Modelled from the spec: a session in which, as in section 4.2, the
    function runs on every partition and the estimator observes the size of
    every partition before the results are combined ([timed_partition],
    [parallel_timed_map] and [timed_combine_with] are not part of the
    sources). *)
Definition observing_session
    (self : ParallelFunction Z Z (list Z) unit unit)
    (current_backend : bool) (nested_backend : option bool)
    (preloaded : Args Z) (partition_generator : list (list Z))
    (estimator : option location)
    (initial_partition_size fixed_partition_size : option (size_argument Z))
    (h : list (list Z)) : list (list Z) * list log_record * outcome Z :=
  let results :=
    (fun part => fn_call (function self)
                   {| positional := part; keywords := keywords preloaded |})
      <$> partition_generator in
  let observed_sizes := (fun part => Z.of_nat (length part)) <$> partition_generator in
  (match estimator with
   | Some l => alter (fun observed => observed ++ observed_sizes) l h
   | None => h
   end,
   [Info "Run with sub-tasks successfully"],
   combine_sum results).

Definition example_init
  : InitArguments Z Z (list Z) unit unit unit -> list (list Z) ->
    list (list Z) * (exception + ParallelFunction Z Z (list Z) unit unit) :=
  __init__ (fun _ _ => tt).

Definition example_call :=
  __call__ module_file (fun backend : bool => backend)
           pass_arguments split_each_value preload_arguments observing_session.

(** [def total( *values)], summing its arguments. *)
Definition total : Function Z Z := {|
  fn_call := fun a => Returned (sum_values (positional a));
  fn_name := "total";
  fn_signature := {| args := []; has_var_arg := true; has_var_kwarg := false |}
|}.

(** [def scale(x, /, *values)]: a positional-only parameter next to a
    variadic one. *)
Definition scale : Function Z Z := {|
  fn_call := fun a =>
    match positional a with
    | x :: values => Returned (x * sum_values values)
    | [] => Raised (TypeError "scale() missing 1 required positional argument: 'x'")
    end;
  fn_name := "scale";
  fn_signature := {|
    args := [("x", {| name := "x"; kind := POSITIONAL_ONLY |})];
    has_var_arg := true;
    has_var_kwarg := false
  |}
|}.

(** [def negate(x, /)] *)
Definition negate : Function Z Z := {|
  fn_call := fun a =>
    match positional a with
    | [x] => Returned (- x)
    | _ => Raised (TypeError "negate() takes 1 positional argument")
    end;
  fn_name := "negate";
  fn_signature := {|
    args := [("x", {| name := "x"; kind := POSITIONAL_ONLY |})];
    has_var_arg := false;
    has_var_kwarg := false
  |}
|}.

(** [ParallelFunction(function, combine_with, split=...)] with the given
    size options. *)
Definition init_arguments (function : Function Z Z)
    (initial_partition_size fixed_partition_size : option (size_argument Z))
  : InitArguments Z Z (list Z) unit unit unit := {|
  init_function := function;
  init_combine_with := tt;
  init_function_name := Some (fn_name function);
  init_profile := false;
  init_trace_export := None;
  init_partition_size_estimator_factory := new_estimator;
  init_split := Some tt;
  init_partition_on := None;
  init_partition_with := None;
  init_initial_partition_size := initial_partition_size;
  init_fixed_partition_size := fixed_partition_size
|}.

(** A worker of a backend without nested tasks, running [apply_function]. *)
Definition inside_a_task : Ambient bool := {|
  parallel_backend := Some false;
  callers := [ {| co_name := "total"; co_filename := "user.py" |};
               {| co_name := "apply_function"; co_filename := module_file |};
               {| co_name := "run"; co_filename := "worker.py" |} ]
|}.

Definition on_the_client : Ambient bool := {|
  parallel_backend := Some false;
  callers := [ {| co_name := "<module>"; co_filename := "user.py" |} ]
|}.

Definition three_values : Args Z := {| positional := [5; 6; 7]; keywords := [] |}.

(** The object [ParallelFunction(total, sum, split=...)] builds in an empty
    store: its estimator is the first of the store. *)
Definition parallel_total : ParallelFunction Z Z (list Z) unit unit := {|
  function := total;
  combine_with := tt;
  split := Some tt;
  function_name := Some "total";
  initial_partition_size := None;
  fixed_partition_size := None;
  profile := false;
  trace_export := None;
  partition_size_estimator_factory := new_estimator;
  _partition_size_estimator := Some 0%nat;
  _function_signature := fn_signature total
|}.

End ParallelFunction.

(** ** Notions that describe the streams of partitions *)

Module Streams.
Import Dataframe.

Section Streams.
Context {Row GroupBy : Type}.
Variable groupby : GroupBy -> list Row -> list (list Row).

(** Each partition holds the rows from where the partitions before it
    stopped, as many as its [actual_size]. *)
Fixpoint consecutive_chunks (dfs : list (value Row)) (start : Z)
    (parts : list (partition (list (value Row)))) : Prop :=
  match parts with
  | [] => True
  | p :: rest =>
      payload p = dfs_chunk dfs start (start + actual_size p) /\
      consecutive_chunks dfs (start + actual_size p) rest
  end.

(** Every dataframe of a payload has [actual_size] rows, and the payload has
    one dataframe for each input. *)
Definition co_partition (dfs : list (value Row))
    (p : partition (list (value Row))) : Prop :=
  length (payload p) = length dfs /\
  Forall (fun df => exists rows,
              df = DataFrame rows /\ Z.of_nat (length rows) = actual_size p)
         (payload p).

(** The iterator [it] of the generator of [df_by_group]: the groups of the
    dataframes, zipped. *)
Definition zipped_groups (by_ : GroupBy) (dfs : list (value Row))
  : list (list (value Row)) :=
  zip_star ((fun df => DataFrame <$> groupby by_ (rows_of df)) <$> dfs).

(** [group[0].shape[0]] *)
Definition group_rows (group : list (value Row)) : Z :=
  shape0 (hd NotDataFrame group).

(** A group whose dataframes all have the rows of the first. *)
Definition uniform_group (group : list (value Row)) : Prop :=
  Forall (fun group_df => shape0 group_df = group_rows group) (tl group).

Definition rows_in (run : list (list (value Row))) : Z :=
  foldr (fun group acc => group_rows group + acc) 0 run.

(** The payload made of a run of whole groups: for each input dataframe, the
    concatenation of its groups of the run. *)
Definition chunk_of_groups (dfs : list (value Row))
    (run : list (list (value Row))) : list (value Row) :=
  (fun j => pd_concat ((fun group => nth j group NotDataFrame) <$> run))
    <$> seq 0 (length dfs).

(** The lists [chunked_group] holds after the groups of [run] were
    appended. *)
Definition chunked_group_of (dfs : list (value Row))
    (run : list (list (value Row))) : list (list (value Row)) :=
  (fun j => (fun group => nth j group NotDataFrame) <$> run)
    <$> seq 0 (length dfs).

(** The groups a suspended generator of [df_by_group] has not read yet. *)
Definition remaining_groups (st : @group_state Row)
  : list (list (value Row)) :=
  match st with
  | GroupPrimed it | GroupInLoop it => it
  | GroupCreated | GroupAtTail => []
  end.

(** A partition that is made of the whole groups of [run]. *)
Definition made_of (dfs : list (value Row))
    (p : partition (list (value Row))) (run : list (list (value Row))) : Prop :=
  run <> [] /\
  Forall uniform_group run /\
  Forall (fun group => length group = length dfs) run /\
  actual_size p = rows_in run /\
  payload p = chunk_of_groups dfs run.

End Streams.

End Streams.

(** ** [apply_function] and what the constructor accepts *)

Module Task.
Import ParallelFunction.

Section Task.
Context {V R Estimator Backend : Type}.
Context {Combine Split PartitionWith NamedArguments Trace : Type}.

(** Collaborators that are not part of the sources: [NamedArguments.merge],
    [NamedArguments.var_args] and [NamedArguments.as_args_kwargs]. *)
Variable __file__ : string.
Variable merge : NamedArguments -> NamedArguments -> exception + NamedArguments.
Variable var_args : NamedArguments -> list V.
Variable as_args_kwargs : NamedArguments -> Args V.

(** How a task ends when it does not return: a failed [assert], or an
    exception of the function or of [merge]. *)
Inductive task_failure : Type :=
| AssertionError
| Escaped (e : exception).

(** A callable as a task runs it: in the ambient state it is called in, on
    the store of the estimators. *)
Definition callable : Type :=
  Ambient Backend -> Args V -> list Estimator ->
  list Estimator * list log_record * outcome R.

(** [apply_function], run in the ambient state [env] of the worker.
    Modelled from the spec: [set_parallel_backend_context(backend)] installs
    [backend] as the ambient backend while the function runs (section 4.4);
    the function is called from the frame of [apply_function]. *)
Definition apply_function (function : callable)
    (non_partitioned_args : NamedArguments)
    (partition : NamedArguments * Trace) (backend : option Backend)
    (env : Ambient Backend) (h : list Estimator)
  : list Estimator * list log_record * (task_failure + (R * Trace)) :=
  let '(partitioned_args, trace) := partition in
  match merge non_partitioned_args partitioned_args with
  | inl e => (h, [], inl (Escaped e))
  | inr merged_args =>
      if negb (Nat.eqb (length (var_args non_partitioned_args)) 0) then
        (h, [], inl AssertionError)
      else
        let a := as_args_kwargs merged_args in
        let frame := {| co_name := "apply_function"; co_filename := __file__ |} in
        let inside := {|
          parallel_backend :=
            match backend with
            | Some b => Some b
            | None => parallel_backend env
            end;
          callers := frame :: callers env
        |} in
        match function inside a h with
        | (h', log, Returned result) => (h', log, inr (result, trace))
        | (h', log, Raised e) => (h', log, inl (Escaped e))
        end
  end.

(** What [apply_function] makes of what its function produced. *)
Definition task_result (trace : Trace)
    (r : list Estimator * list log_record * outcome R)
  : list Estimator * list log_record * (task_failure + (R * Trace)) :=
  match r with
  | (h', log, Returned result) => (h', log, inr (result, trace))
  | (h', log, Raised e) => (h', log, inl (Escaped e))
  end.

(** What the constructor asks of its arguments. *)
Definition valid_size (size : option (size_argument V)) : Prop :=
  match size with
  | None | Some (SizeInt _) | Some (SizeCallable _) => True
  | Some SizeOther => False
  end.

Definition supported_signature (signature : FunctionSignature) : Prop :=
  has_var_arg signature = true \/ has_var_kwarg signature = true \/
  Forall (fun arg => kind arg.2 <> POSITIONAL_ONLY) (args signature).

Definition accepted
    (a : InitArguments V R Estimator Combine Split PartitionWith) : Prop :=
  (init_partition_on a = None <-> init_partition_with a = None) /\
  (init_partition_on a = None \/ init_split a = None) /\
  valid_size (init_initial_partition_size a) /\
  valid_size (init_fixed_partition_size a) /\
  (init_initial_partition_size a = None \/ init_fixed_partition_size a = None) /\
  supported_signature (fn_signature (init_function a)).

(** [partition_on] as a tuple of names. *)
Definition partition_on_names (partition_on : string + list string)
  : list string :=
  match partition_on with
  | inl one => [one]
  | inr several => several
  end.

(** The size option the constructor keeps: wrapped by
    [_legacy_partition_size] when [partition_on] is given. *)
Definition size_kept
    (a : InitArguments V R Estimator Combine Split PartitionWith)
    (size : option (size_argument V)) : option (size_argument V) :=
  match init_partition_on a with
  | Some partition_on =>
      _legacy_partition_size (partition_on_names partition_on) size
  | None => size
  end.

(** A size as [_get_user_partition_sizes] hands it on: nothing or an
    integer. *)
Definition resolved (size : option (size_argument V)) : Prop :=
  size = None \/ exists n, size = Some (SizeInt n).

End Task.

Arguments task_failure : clear implicits.

End Task.

(** ** Concrete objects for the examples of the further properties *)

Module Examples.
Import ParallelFunction Task.

(** [def twice(x)] *)
Definition twice : Function Z Z := {|
  fn_call := fun a =>
    match positional a, lookup_keyword (keywords a) "x" with
    | [x], _ => Returned (2 * x)
    | [], Some x => Returned (2 * x)
    | _, _ => Raised (TypeError "twice() missing 1 required positional argument: 'x'")
    end;
  fn_name := "twice";
  fn_signature := {|
    args := [("x", {| name := "x"; kind := POSITIONAL_OR_KEYWORD |})];
    has_var_arg := false;
    has_var_kwarg := false
  |}
|}.

(** [lambda x: x + 1] *)
Definition one_more (a : Args Z) : outcome Z :=
  match positional a with
  | [x] => Returned (x + 1)
  | _ => Raised (TypeError "<lambda>() takes 1 positional argument")
  end.

(** [ParallelFunction(twice, sum, partition_on="x", partition_with=...,
    initial_partition_size=lambda x: x + 1)] *)
Definition legacy_arguments : InitArguments Z Z (list Z) unit unit unit := {|
  init_function := twice;
  init_combine_with := tt;
  init_function_name := Some "twice";
  init_profile := false;
  init_trace_export := None;
  init_partition_size_estimator_factory := new_estimator;
  init_split := None;
  init_partition_on := Some (inl "x");
  init_partition_with := Some tt;
  init_initial_partition_size := Some (SizeCallable one_more);
  init_fixed_partition_size := None
|}.

(** The object the constructor builds from them in an empty store. *)
Definition legacy_twice : ParallelFunction Z Z (list Z) unit unit :=
  match example_init legacy_arguments [] with
  | (_, inr self) => self
  | (_, inl _) => parallel_total
  end.

(** [ParallelFunction(total, sum, split=..., fixed_partition_size=10)] *)
Definition fixed_total : ParallelFunction Z Z (list Z) unit unit :=
  match example_init (init_arguments total None (Some (SizeInt 10))) [] with
  | (_, inr self) => self
  | (_, inl _) => parallel_total
  end.

(** [NamedArguments.merge] and [as_args_kwargs] on arguments kept as they
    were passed. *)
Definition merge_arguments (non_partitioned partitioned : Args Z)
  : exception + Args Z :=
  inr {| positional := positional non_partitioned ++ positional partitioned;
         keywords := keywords non_partitioned ++ keywords partitioned |}.

Definition no_arguments : Args Z := {| positional := []; keywords := [] |}.

(** A worker with no ambient backend. *)
Definition on_a_worker : Ambient bool := {|
  parallel_backend := None;
  callers := [ {| co_name := "run"; co_filename := "worker.py" |} ]
|}.

(** The frame of a user function that calls a parallel function. *)
Definition user_frames : list Frame :=
  [ {| co_name := "outer"; co_filename := "user.py" |} ].

(** A parallel function called by the function of a task. *)
Definition call_total_inside : Ambient bool -> Args Z -> list (list Z) ->
    list (list Z) * list log_record * outcome Z :=
  fun inside args h =>
    example_call parallel_total
      {| parallel_backend := parallel_backend inside;
         callers := user_frames ++ callers inside |} args h.

Definition example_apply_function :=
  apply_function (R:=Z) (Estimator:=list Z) (Backend:=bool) (Trace:=nat)
                 module_file merge_arguments positional
                 (fun merged : Args Z => merged).

(** A dataframe whose keys 1 and 2 are carried by two rows and one row. *)
Definition three_rows_two_keys : Dataframe.value (Z * Z) :=
  Dataframe.DataFrame [(2, 20); (1, 10); (1, 11)].

(** Another dataframe with key 1 on a single row. *)
Definition one_row_one_key : Dataframe.value (Z * Z) :=
  Dataframe.DataFrame [(1, 30); (2, 31); (2, 32)].

End Examples.

(** * Properties *)

(** Case analysis on the integer comparison the goal branches on. *)
Ltac case_ltb :=
  match goal with
  | |- context [?a <? ?b] => destruct (Z.ltb_spec a b)
  | |- context [?a >? ?b] => rewrite (Z.gtb_ltb a b)
  | |- context [?a >=? ?b] => rewrite (Z.geb_leb a b)
  | |- context [?a <=? ?b] => destruct (Z.leb_spec a b)
  end.

(** ** The driver *)

Section DriverFacts.
Context {G P : Type}.
Variable gen_send : G -> option Z -> resumed G (option (Z * P)).

Lemma send_all_yields g size rest actual p g' :
  gen_send g (Some size) = Yields (Some (actual, p)) g' ->
  send_all gen_send g (size :: rest) =
    (Partition size actual p :: (send_all gen_send g' rest).1,
     (send_all gen_send g' rest).2).
Proof.
  intros Hsend. simpl. rewrite Hsend.
  now destruct (send_all gen_send g' rest).
Qed.

Lemma send_all_stops g size rest :
  gen_send g (Some size) = Stops ->
  send_all gen_send g (size :: rest) = ([], Exhausted).
Proof. intros Hsend. simpl. now rewrite Hsend. Qed.

(** A property of partitions that every resumption from a state in [Inv]
    establishes holds of every partition of a run. *)
Lemma send_all_Forall (Inv : G -> Prop) (Q : partition P -> Prop) :
  (forall g size actual p g',
      Inv g -> 0 < size ->
      gen_send g (Some size) = Yields (Some (actual, p)) g' ->
      Q (Partition size actual p) /\ Inv g') ->
  forall sizes g,
    Inv g -> Forall (fun size => 0 < size) sizes ->
    Forall Q (send_all gen_send g sizes).1.
Proof.
  intros Hstep. induction sizes as [|size rest IH]; intros g Hg Hsizes.
  { constructor. }
  apply Forall_cons in Hsizes as [Hsize Hrest].
  destruct (gen_send g (Some size)) as [[[actual p]|] g'| |e] eqn:Hsend.
  - rewrite (send_all_yields _ _ _ _ _ _ Hsend). cbn [fst].
    destruct (Hstep _ _ _ _ _ Hg Hsize Hsend) as [HQ Hg'].
    constructor; [done|]. now apply IH.
  - simpl. rewrite Hsend. constructor.
  - simpl. rewrite Hsend. constructor.
  - simpl. rewrite Hsend. constructor.
Qed.
End DriverFacts.

(** ** [df_by_row] *)

Section RowFacts.
Import Dataframe.
Context {Row : Type}.
Implicit Types (dfs : list (value Row)) (rows : list Row).
Implicit Types (st : @row_state) (sizes : list Z).

Lemma slice_in_range rows a b :
  0 <= a <= b -> b <= Z.of_nat (length rows) ->
  slice rows a b = take (Z.to_nat (b - a)) (drop (Z.to_nat a) rows).
Proof.
  intros Ha Hb. unfold slice, slice_index.
  destruct (Z.ltb_spec a 0), (Z.ltb_spec b 0); try lia.
  now rewrite !Z.min_l by lia.
Qed.

Lemma slice_app_drop rows a b :
  0 <= a <= b -> b <= Z.of_nat (length rows) ->
  slice rows a b ++ drop (Z.to_nat b) rows = drop (Z.to_nat a) rows.
Proof.
  intros Ha Hb. rewrite slice_in_range by lia.
  replace (Z.to_nat b) with (Z.to_nat a + Z.to_nat (b - a))%nat by lia.
  rewrite <- drop_drop. apply take_drop.
Qed.

Lemma co_partitioned_valid n dfs :
  co_partitioned n dfs ->
  __validate_dfs_parameter dfs = None /\
  shape0 (hd NotDataFrame dfs) = Z.of_nat n.
Proof.
  intros [Hne Hall]. unfold __validate_dfs_parameter.
  destruct dfs as [|df dfs]; [done|].
  destruct (Z.ltb_spec (Z.of_nat (length (df :: dfs))) 1) as [Hlen|_].
  { simpl in Hlen. lia. }
  assert (Hsize : forall v, In v (df :: dfs) ->
            isinstance_DataFrame v = true /\ shape0 v = Z.of_nat n).
  { intros v Hv. rewrite Forall_forall in Hall.
    apply list_elem_of_In, Hall in Hv as (rows & -> & <-). done. }
  destruct (existsb _ (df :: dfs)) eqn:Hinst.
  { apply existsb_exists in Hinst as (v & Hv & Hneg).
    apply Hsize in Hv as [Hv _]. now rewrite Hv in Hneg. }
  simpl hd. simpl tl.
  destruct (Hsize df (or_introl eq_refl)) as [_ Hdf].
  destruct (existsb _ dfs) eqn:Hrows; [|done].
  apply existsb_exists in Hrows as (v & Hv & Hneg).
  destruct (Hsize v (or_intror Hv)) as [_ Hvn].
  rewrite Hvn, Hdf, Z.eqb_refl in Hneg. done.
Qed.

Lemma total_actual_size_cons (p : partition (list (value Row))) parts :
  total_actual_size (p :: parts) = actual_size p + total_actual_size parts.
Proof. done. Qed.

Lemma column_cons j (p : partition (list (value Row))) parts :
  column j (p :: parts) = nth j (payload p) NotDataFrame :: column j parts.
Proof. done. Qed.

Lemma nth_dfs_chunk dfs j rows a b :
  dfs !! j = Some (DataFrame rows) ->
  nth j (dfs_chunk dfs a b) NotDataFrame = DataFrame (slice rows a b).
Proof.
  intros Hj. unfold dfs_chunk.
  rewrite nth_lookup, list_lookup_fmap, Hj. done.
Qed.

Lemma df_by_row_send_at dfs st pos size :
  let n := shape0 (hd NotDataFrame dfs) in
  row_position n st pos -> 0 < size ->
  df_by_row_send (RowGenerator dfs st) (Some size) =
    if pos + size <? n then
      Yields (Some (size, dfs_chunk dfs pos (pos + size)))
             (RowGenerator dfs (RowInLoop pos (pos + size)))
    else if pos <? n then
      Yields (Some (n - pos, dfs_chunk dfs pos n)) (RowGenerator dfs RowAtTail)
    else Stops.
Proof.
  intros n Hpos Hsize. destruct st; simpl in Hpos.
  - done.
  - subst pos. done.
  - destruct Hpos as [-> _]. done.
  - subst pos. unfold df_by_row_send; simpl. fold n.
    destruct (Z.ltb_spec (n + size) n); [lia|].
    destruct (Z.ltb_spec n n); [lia|done].
Qed.

Lemma row_run_from n dfs sizes : forall st pos,
  co_partitioned n dfs ->
  Forall (fun size => 0 < size) sizes ->
  row_position (Z.of_nat n) st pos -> 0 <= pos <= Z.of_nat n ->
  let r := send_all df_by_row_send (RowGenerator dfs st) sizes in
  (Z.of_nat n - pos < Z.of_nat (length sizes) -> r.2 = Exhausted) /\
  (r.2 = Exhausted ->
     total_actual_size r.1 = Z.of_nat n - pos /\
     forall j rows, dfs !! j = Some (DataFrame rows) ->
       concat (rows_of <$> column j r.1) = drop (Z.to_nat pos) rows) /\
  (pos < Z.of_nat n -> sizes <> [] -> r.1 <> []).
Proof.
  induction sizes as [|size rest IH]; intros st pos Hco Hsizes Hpos Hrange.
  { cbn [send_all fst snd length]. repeat split; try done. lia. }
  apply Forall_cons in Hsizes as [Hsize Hrest].
  destruct (co_partitioned_valid _ _ Hco) as [_ Hn].
  assert (Hlen : forall j rows, dfs !! j = Some (DataFrame rows) ->
            length rows = n).
  { intros j rows Hj. destruct Hco as [_ Hall].
    rewrite Forall_forall in Hall.
    apply list_elem_of_lookup_2, Hall in Hj as (rows' & [= ->] & Hl). done. }
  pose proof (df_by_row_send_at dfs st pos size) as Hstep.
  simpl in Hstep. rewrite Hn in Hstep. specialize (Hstep Hpos Hsize).
  destruct (Z.ltb_spec (pos + size) (Z.of_nat n)) as [Hlt|Hge].
  - (* a full chunk, from inside the loop *)
    intros r. subst r. rewrite (send_all_yields _ _ _ _ _ _ _ Hstep).
    cbn [fst snd length]; rewrite ?total_actual_size_cons; cbn [actual_size].
    destruct (IH (RowInLoop pos (pos + size)) (pos + size) Hco Hrest)
      as (Hend & Hcover & _); [simpl; lia | lia |].
    split; [intros; apply Hend; lia|].
    split; [|done].
    intros Hex. destruct (Hcover Hex) as [Hsum Hcol].
    split; [lia|].
    intros j rows Hj. rewrite column_cons, fmap_cons, concat_cons.
    cbn [payload]. rewrite (nth_dfs_chunk _ _ _ _ _ Hj), (Hcol _ _ Hj).
    cbn [rows_of].
    apply slice_app_drop; [lia|]. rewrite (Hlen _ _ Hj). lia.
  - destruct (Z.ltb_spec pos (Z.of_nat n)) as [Hlt|Hge'].
    + (* the last, possibly shorter chunk *)
      intros r. subst r. rewrite (send_all_yields _ _ _ _ _ _ _ Hstep).
    cbn [fst snd length]; rewrite ?total_actual_size_cons; cbn [actual_size].
      destruct (IH RowAtTail (Z.of_nat n) Hco Hrest)
        as (Hend & Hcover & _); [done | lia |].
      split; [intros; apply Hend; lia|].
      split; [|done].
      intros Hex. destruct (Hcover Hex) as [Hsum Hcol].
      split; [lia|].
      intros j rows Hj. rewrite column_cons, fmap_cons, concat_cons.
      cbn [payload]. rewrite (nth_dfs_chunk _ _ _ _ _ Hj), (Hcol _ _ Hj).
    cbn [rows_of].
      apply slice_app_drop; [lia|]. rewrite (Hlen _ _ Hj). lia.
    + (* nothing left *)
      intros r. subst r. rewrite (send_all_stops _ _ _ _ Hstep).
      cbn [fst snd length]; rewrite ?total_actual_size_cons; cbn [actual_size].
      split; [done|]. split; [|lia].
      intros _. split; [cbn; lia|].
      intros j rows Hj. rewrite drop_ge; [done|].
      rewrite (Hlen _ _ Hj). lia.
Qed.

Lemma partitions_by_row_primed dfs sizes :
  __validate_dfs_parameter dfs = None ->
  partitions_by_row dfs sizes =
    send_all df_by_row_send (RowGenerator dfs RowPrimed) sizes.
Proof.
  intros Hvalid. unfold partitions_by_row, drive, df_by_row.
  unfold df_by_row_send at 1. cbn [row_dfs row_state_of]. now rewrite Hvalid.
Qed.

Lemma partitions_by_row_invalid dfs sizes e :
  __validate_dfs_parameter dfs = Some e ->
  partitions_by_row dfs sizes = ([], Failed e).
Proof.
  intros Hvalid. unfold partitions_by_row, drive, df_by_row.
  unfold df_by_row_send at 1. cbn [row_dfs row_state_of]. now rewrite Hvalid.
Qed.

Lemma partitions_by_row_ends (n : nat) dfs sizes :
  co_partitioned n dfs ->
  Forall (fun size => 0 < size) sizes ->
  Z.of_nat n < Z.of_nat (length sizes) ->
  (partitions_by_row dfs sizes).2 = Exhausted.
Proof.
  intros Hco Hsizes Hlen.
  destruct (co_partitioned_valid _ _ Hco) as [Hvalid _].
  rewrite (partitions_by_row_primed _ _ Hvalid).
  destruct (row_run_from n dfs sizes RowPrimed 0 Hco Hsizes)
    as (Hend & _); [done | lia |].
  apply Hend. lia.
Qed.

Lemma df_by_row_send_bounds (g : row_generator Row) size actual p g' :
  0 < size ->
  df_by_row_send g (Some size) = Yields (Some (actual, p)) g' ->
  1 <= actual <= size /\
  (actual = size \/ row_state_of g' = RowAtTail).
Proof.
  intros Hsize. destruct g as [dfs [| |range_start range_end|]];
    unfold df_by_row_send, df_by_row_loop; cbn [row_dfs row_state_of];
    try done;
    repeat case_ltb; intros [= <- <- <-]; cbn [row_state_of];
    (split; [lia|]); auto.
Qed.

Lemma row_sizes_bounded dfs st sizes :
  Forall (fun size => 0 < size) sizes ->
  Forall (fun p => 1 <= actual_size p <= requested_size p)
         (send_all df_by_row_send (RowGenerator dfs st) sizes).1.
Proof.
  intros Hsizes.
  apply (send_all_Forall df_by_row_send (fun _ => True)); [|done|done].
  intros g size actual p g' _ Hsize Hsend. split; [|done].
  apply (df_by_row_send_bounds _ _ _ _ _ Hsize Hsend).
Qed.

Lemma row_fixed_from dfs k :
  1 <= k -> forall m st,
  let parts :=
    (send_all df_by_row_send (RowGenerator dfs st) (replicate m k)).1 in
  Forall (fun p => actual_size p = k) (removelast parts) /\
  (forall p, last parts = Some p -> 1 <= actual_size p <= k).
Proof.
  intros Hk. induction m as [|m IH]; intros st parts; subst parts.
  { split; [constructor|done]. }
  cbn [replicate].
  destruct (df_by_row_send (RowGenerator dfs st) (Some k))
    as [[[actual p]|] g'| |e] eqn:Hsend;
    try (simpl; rewrite Hsend; split; [constructor|done]).
  rewrite (send_all_yields _ _ _ _ _ _ _ Hsend). cbn [fst].
  assert (Hpos : 0 < k) by lia.
  destruct (df_by_row_send_bounds _ _ _ _ _ Hpos Hsend) as [Hbounds Hshape].
  assert (Hdfs : row_dfs g' = dfs).
  { revert Hsend. destruct st; unfold df_by_row_send, df_by_row_loop;
      cbn [row_dfs row_state_of]; try done;
      repeat case_ltb; now intros [= <- <- <-]. }
  destruct g' as [dfs' st']. cbn in Hdfs, Hshape. subst dfs'.
  destruct (send_all df_by_row_send (RowGenerator dfs st') (replicate m k)).1
    as [|q parts'] eqn:Hparts.
  { split; [constructor|]. now intros p' [= <-]. }
  destruct Hshape as [->| ->].
  - specialize (IH st'). cbn zeta in IH. rewrite Hparts in IH.
    destruct IH as [IHall IHlast]. split.
    + change (removelast (Partition k k p :: q :: parts'))
        with (Partition k k p :: removelast (q :: parts')).
      now constructor.
    + intros p'. rewrite last_cons_cons. apply IHlast.
  - destruct m; discriminate Hparts.
Qed.

End RowFacts.

(** ** [df_by_group] *)

Section GroupFacts.
Import Dataframe.
Context {Row GroupBy : Type}.
Variable groupby : GroupBy -> list Row -> list (list Row).
Implicit Types (dfs : list (value Row)) (it : list (list (value Row))).

Lemma zip_star_upto_heads {A} (Q : A -> Prop) (d : A) n :
  forall (l : list A) (ls : list (list A)),
    Forall Q l ->
    Forall (fun t => Q (hd d t)) (zip_star_upto n (l :: ls)).
Proof.
  induction n as [|n IH]; intros l ls Hl; [constructor|].
  cbn [zip_star_upto].
  destruct (mapM head (l :: ls)) as [hs|] eqn:Hheads; [|constructor].
  destruct l as [|x l]; [done|].
  apply Forall_cons in Hl as [Hx Hl].
  cbn in Hheads. destruct (mapM head ls) as [hs'|]; [|done].
  injection Hheads as <-.
  constructor; [done|]. cbn [fmap list_fmap tail]. now apply IH.
Qed.

Lemma zip_star_heads {A} (Q : A -> Prop) (d : A) (ls : list (list A)) :
  Forall Q (hd [] ls) ->
  Forall (fun t => Q (hd d t)) (zip_star ls).
Proof.
  destruct ls as [|l ls]; [constructor|].
  intros Hl. now apply zip_star_upto_heads.
Qed.

Lemma df_by_group_loop_bounds by_ dfs (m : nat) size :
  0 < size ->
  forall it chunked_group chunked_group_size actual p
         (g' : group_generator Row GroupBy),
    Forall (fun group => shape0 (hd NotDataFrame group) <= Z.of_nat m) it ->
    chunked_group_size < size ->
    df_by_group_loop by_ dfs it chunked_group chunked_group_size (Some size)
      = Yields (Some (actual, p)) g' ->
    1 <= actual < size + Z.of_nat m /\ groups_within m g'.
Proof.
  intros Hsize.
  induction it as [|group it IH];
    intros chunked_group chunked_group_size actual p g' Hit Hless;
    cbn [df_by_group_loop].
  - rewrite Z.gtb_ltb. case_ltb; [|done].
    intros [= <- <- <-]. split; [lia|done].
  - apply Forall_cons in Hit as [Hgroup Hit].
    destruct (existsb _ (tl group)); [done|].
    rewrite Z.geb_leb. case_ltb.
    + intros [= <- <- <-]. split; [lia|done].
    + apply IH; [done|lia].
Qed.

Lemma df_by_group_send_bounds (m : nat) (g : group_generator Row GroupBy)
    size actual p g' :
  groups_within m g -> 0 < size ->
  df_by_group_send groupby g (Some size) = Yields (Some (actual, p)) g' ->
  1 <= actual < size + Z.of_nat m /\ groups_within m g'.
Proof.
  intros Hwithin Hsize.
  destruct g as [by_ dfs [|it|it|]]; unfold df_by_group_send;
    cbn [group_by group_dfs group_state_of]; try done;
    apply df_by_group_loop_bounds; done || lia.
Qed.

Lemma group_sizes_bounded (m : nat) (g : group_generator Row GroupBy) sizes :
  groups_within m g ->
  Forall (fun size => 0 < size) sizes ->
  Forall (fun p => 1 <= actual_size p < requested_size p + Z.of_nat m)
         (send_all (df_by_group_send groupby) g sizes).1.
Proof.
  intros Hwithin Hsizes.
  apply (send_all_Forall (df_by_group_send groupby) (groups_within m));
    [|done|done].
  intros g0 size actual p g' Hg0 Hsize Hsend. cbn [actual_size requested_size].
  apply (df_by_group_send_bounds _ _ _ _ _ _ Hg0 Hsize Hsend).
Qed.

Lemma partitions_by_group_primed by_ dfs sizes :
  __validate_dfs_parameter dfs = None ->
  partitions_by_group groupby by_ dfs sizes =
    send_all (df_by_group_send groupby)
      (GroupGenerator by_ dfs
         (GroupPrimed
            (zip_star ((fun df => DataFrame <$> groupby by_ (rows_of df)) <$> dfs))))
      sizes.
Proof.
  intros Hvalid. unfold partitions_by_group, drive, df_by_group.
  unfold df_by_group_send at 1. cbn [group_by group_dfs group_state_of].
  now rewrite Hvalid.
Qed.

Lemma partitions_by_group_invalid by_ dfs sizes e :
  __validate_dfs_parameter dfs = Some e ->
  partitions_by_group groupby by_ dfs sizes = ([], Failed e).
Proof.
  intros Hvalid. unfold partitions_by_group, drive, df_by_group.
  unfold df_by_group_send at 1. cbn [group_by group_dfs group_state_of].
  now rewrite Hvalid.
Qed.

Lemma groups_within_primed (m : nat) by_ dfs :
  Forall (fun df => Forall (fun group => (length group <= m)%nat)
                           (groupby by_ (rows_of df))) dfs ->
  groups_within m
    (GroupGenerator by_ dfs
       (GroupPrimed
          (zip_star ((fun df => DataFrame <$> groupby by_ (rows_of df)) <$> dfs)))).
Proof.
  intros Hall. unfold groups_within. cbn [group_state_of].
  apply (zip_star_heads (fun v => shape0 v <= Z.of_nat m) NotDataFrame).
  destruct dfs as [|df dfs]; [constructor|].
  apply Forall_cons in Hall as [Hdf _]. cbn [fmap list_fmap hd].
  apply Forall_fmap. eapply Forall_impl; [exact Hdf|].
  intros group Hgroup. unfold compose. cbn beta in Hgroup |- *.
  cbn [shape0]. lia.
Qed.

End GroupFacts.

(** ** The partitioners of [dataframe.py] *)

Section DataframeClaims.
Import Dataframe.
Context {Row GroupBy : Type}.
Variable groupby : GroupBy -> list Row -> list (list Row).
Implicit Types (dfs : list (value Row)) (sizes : list Z).

(** C1, as amended.  For every sequence of positive requested sizes, every
    partition [df_by_row] yields has [1 <= actual_size <= requested_size].
    Every partition the generator of [df_by_group] yields has
    [1 <= actual_size], but it is made of whole groups and may exceed the
    requested size: when no group has more than [m] rows,
    [actual_size < requested_size + m]. *)
Theorem partition_size_bounds (by_ : GroupBy) dfs sizes (m : nat) :
  Forall (fun size => 0 < size) sizes ->
  Forall (fun df => Forall (fun group => (length group <= m)%nat)
                           (groupby by_ (rows_of df))) dfs ->
  Forall (fun p => 1 <= actual_size p <= requested_size p)
         (partitions_by_row dfs sizes).1 /\
  Forall (fun p => 1 <= actual_size p < requested_size p + Z.of_nat m)
         (partitions_by_group groupby by_ dfs sizes).1.
Proof.
  intros Hsizes Hgroups.
  destruct (__validate_dfs_parameter dfs) as [e|] eqn:Hvalid.
  { rewrite (partitions_by_row_invalid _ _ _ Hvalid).
    rewrite (partitions_by_group_invalid _ _ _ _ _ Hvalid).
    split; constructor. }
  rewrite (partitions_by_row_primed _ _ Hvalid).
  rewrite (partitions_by_group_primed _ _ _ _ Hvalid).
  split.
  - now apply row_sizes_bounded.
  - apply group_sizes_bounded; [|done].
    now apply groups_within_primed.
Qed.

(** C4.  On one or more dataframes of [n] rows each and positive requested
    sizes, [df_by_row] ends once more than [n] sizes were sent; when it
    has ended, the [actual_size]s sum to [n] and the slices of every
    dataframe concatenate, in order, to that dataframe; and a partition is
    yielded as soon as [n >= 1] and a size is sent. *)
Theorem df_by_row_cover (n : nat) dfs sizes :
  co_partitioned n dfs ->
  Forall (fun size => 0 < size) sizes ->
  let r := partitions_by_row dfs sizes in
  (Z.of_nat n < Z.of_nat (length sizes) -> r.2 = Exhausted) /\
  (r.2 = Exhausted ->
     total_actual_size r.1 = Z.of_nat n /\
     forall j df, dfs !! j = Some df -> pd_concat (column j r.1) = df) /\
  (1 <= Z.of_nat n -> sizes <> [] -> r.1 <> []).
Proof.
  intros Hco Hsizes.
  destruct (co_partitioned_valid _ _ Hco) as [Hvalid _].
  rewrite (partitions_by_row_primed _ _ Hvalid).
  destruct (row_run_from n dfs sizes RowPrimed 0 Hco Hsizes)
    as (Hend & Hcover & Hsome); [done | lia |].
  split; [intros; apply Hend; lia|].
  split; [|intros; apply Hsome; [lia|done]].
  intros Hex. destruct (Hcover Hex) as [Hsum Hcol].
  split; [lia|].
  intros j df Hj. destruct Hco as [_ Hall].
  rewrite Forall_forall in Hall.
  destruct (Hall df (list_elem_of_lookup_2 _ _ _ Hj)) as (rows & -> & _).
  unfold pd_concat. now rewrite (Hcol _ _ Hj).
Qed.

(** C7.  When every requested size is the same [k >= 1], every partition
    [df_by_row] yields but the last has [actual_size = k] and the last has
    [1 <= actual_size <= k]; on [n]-row dataframes the stream has ended
    once more than [n] sizes were sent. *)
Theorem df_by_row_fixed_size dfs (k : Z) (count : nat) :
  1 <= k ->
  let r := partitions_by_row dfs (replicate count k) in
  Forall (fun p => actual_size p = k) (removelast r.1) /\
  (forall p, last r.1 = Some p -> 1 <= actual_size p <= k) /\
  (forall n : nat, co_partitioned n dfs -> (n < count)%nat -> r.2 = Exhausted).
Proof.
  intros Hk r. subst r.
  assert (Hpos : Forall (fun size => 0 < size) (replicate count k)).
  { apply Forall_replicate. lia. }
  split; [|split].
  - destruct (__validate_dfs_parameter dfs) as [e|] eqn:Hvalid.
    { rewrite (partitions_by_row_invalid _ _ _ Hvalid). constructor. }
    rewrite (partitions_by_row_primed _ _ Hvalid).
    apply (row_fixed_from dfs k Hk count RowPrimed).
  - destruct (__validate_dfs_parameter dfs) as [e|] eqn:Hvalid.
    { now rewrite (partitions_by_row_invalid _ _ _ Hvalid). }
    rewrite (partitions_by_row_primed _ _ Hvalid).
    apply (row_fixed_from dfs k Hk count RowPrimed).
  - intros n Hco Hcount.
    apply (partitions_by_row_ends n); [done|done|].
    rewrite length_replicate. lia.
Qed.

(** C9.  When no dataframe is given, when a value is not a dataframe, or
    when two of the dataframes have different numbers of rows, driving
    [df_by_row] or the generator of [df_by_group] raises a [ValueError] at
    the priming step and no partition is yielded. *)
Theorem invalid_dfs_raise (by_ : GroupBy) dfs sizes :
  dfs = [] \/
  NotDataFrame ∈ dfs \/
  (exists rows1 rows2,
      DataFrame rows1 ∈ dfs /\ DataFrame rows2 ∈ dfs /\
      length rows1 <> length rows2) ->
  exists msg,
    partitions_by_row dfs sizes = ([], Failed (ValueError msg)) /\
    partitions_by_group groupby by_ dfs sizes = ([], Failed (ValueError msg)).
Proof.
  intros Hbad.
  assert (Hvalid : exists msg,
             __validate_dfs_parameter dfs = Some (ValueError msg)).
  { unfold __validate_dfs_parameter.
    destruct (Z.ltb_spec (Z.of_nat (length dfs)) 1) as [|Hlen]; [eauto|].
    destruct (existsb _ dfs) eqn:Hinst; [eauto|].
    destruct (existsb _ (tl dfs)) eqn:Hrows; [eauto|].
    exfalso. apply not_true_iff_false in Hinst, Hrows.
    destruct Hbad as [->|[Hnot|(rows1 & rows2 & Hin1 & Hin2 & Hne)]].
    - simpl in Hlen. lia.
    - apply Hinst, existsb_exists.
      exists NotDataFrame. split; [now apply list_elem_of_In|done].
    - assert (Hsame : forall rows, DataFrame rows ∈ dfs ->
                shape0 (DataFrame rows) = shape0 (hd NotDataFrame dfs)).
      { intros rows Hin. destruct dfs as [|df rest]; [done|].
        apply elem_of_cons in Hin as [<-|Hin]; [done|].
        destruct (Z.eq_dec (shape0 (DataFrame rows))
                           (shape0 (hd NotDataFrame (df :: rest))))
          as [Heq|Hneq]; [done|].
        exfalso. apply Hrows, existsb_exists.
        exists (DataFrame rows). split; [now apply list_elem_of_In|].
        now apply negb_true_iff, Z.eqb_neq. }
      apply Hsame in Hin1, Hin2. cbn [shape0] in Hin1, Hin2. lia. }
  destruct Hvalid as [msg Hvalid]. exists msg.
  rewrite (partitions_by_row_invalid _ _ _ Hvalid).
  now rewrite (partitions_by_group_invalid _ _ _ _ _ Hvalid).
Qed.

(** C10.  [dfs_by_row] and [partition_dfs_by_chunk] return the generator
    [df_by_row] returns, hence the same stream of partitions, and
    [dfs_by_group] returns the partition function [df_by_group] returns;
    each of them logs one deprecation warning. *)
Theorem deprecated_partitioners_agree (by_ : GroupBy) dfs sizes :
  ((dfs_by_row dfs).2 = df_by_row dfs /\
   drive df_by_row_send (dfs_by_row dfs).2 sizes = partitions_by_row dfs sizes /\
   exists msg, (dfs_by_row dfs).1 = [Warning msg]) /\
  ((partition_dfs_by_chunk dfs).2 = df_by_row dfs /\
   drive df_by_row_send (partition_dfs_by_chunk dfs).2 sizes
     = partitions_by_row dfs sizes /\
   exists msg, (partition_dfs_by_chunk dfs).1 = [Warning msg]) /\
  ((dfs_by_group (Row:=Row) by_).2 = df_by_group by_ /\
   drive (df_by_group_send groupby) ((dfs_by_group by_).2 dfs) sizes
     = partitions_by_group groupby by_ dfs sizes /\
   exists msg, (dfs_by_group (Row:=Row) by_).1 = [Warning msg]).
Proof.
  unfold dfs_by_row, partition_dfs_by_chunk, dfs_by_group,
    partitions_by_row, partitions_by_group.
  cbn [fst snd]. repeat split; eauto.
Qed.

End DataframeClaims.

(** ** The controller of [parallel_function.py] *)

Section ControllerClaims.
Import ParallelFunction.
Context {V R Estimator Backend : Type}.
Context {Combine Split PartitionWith NamedArguments Generator Preloaded : Type}.
Variable __file__ : string.
Variable allows_nested_tasks : Backend -> bool.
Variable multiple_arguments : list string -> PartitionWith -> Split.
Variable assign : FunctionSignature -> Args V -> exception + NamedArguments.
Variable call_split :
  Split -> NamedArguments -> exception + (NamedArguments * Generator).
Variable preload_value : Backend -> NamedArguments -> exception + Preloaded.
Variable scatter_gather :
  ParallelFunction V R Estimator Combine Split ->
  Backend -> option Backend -> Preloaded -> Generator ->
  option location ->
  option (size_argument V) -> option (size_argument V) ->
  list Estimator -> list Estimator * list log_record * outcome R.

Abbreviation init := (__init__ multiple_arguments).
Abbreviation call :=
  (__call__ __file__ allows_nested_tasks assign call_split preload_value
            scatter_gather).

Implicit Types (a : InitArguments V R Estimator Combine Split PartitionWith).
Implicit Types (self : ParallelFunction V R Estimator Combine Split).
Implicit Types (h : list Estimator).

(** Every exception that escapes [__init__] is a [ValueError], and
    [__init__] touches the store only to allocate the estimator. *)
Lemma __init___raises a h h' e :
  init a h = (h', inl e) -> exists msg, e = ValueError msg.
Proof.
  unfold __init__, _partition_size_validator, _validate_function_signature.
  repeat (case_match; simplify_eq; eauto); intros; simplify_eq; eauto.
Qed.

(** C2, as amended.  When no [fixed_partition_size] is given, [__init__]
    calls the estimator factory once and keeps the estimator it made in
    the object.  [__call__] makes no estimator: whenever it does not
    leave the store as it found it, it has run the session on the
    estimator made at construction, in the state the store holds for
    it, which is the state the earlier invocations left. *)
Theorem estimator_made_at_construction a h h' self :
  init_fixed_partition_size a = None ->
  init a h = (h', inr self) ->
  h' = h ++ [init_partition_size_estimator_factory a tt] /\
  _partition_size_estimator self = Some (length h) /\
  forall env (args : Args V) h1,
    let r := call self env args h1 in
    r.1.1 = h1 \/
    exists backend nested_backend preloaded generator initial fixed,
      r = scatter_gather self backend nested_backend preloaded generator
            (Some (length h)) initial fixed h1.
Proof.
  intros Hfixed Hinit.
  assert (Hmade : h' = h ++ [init_partition_size_estimator_factory a tt] /\
                  _partition_size_estimator self = Some (length h)).
  { revert Hinit. unfold __init__, allocate. rewrite Hfixed.
    cbn [_legacy_partition_size].
    repeat (case_match; simplify_eq; eauto); intros; simplify_eq; eauto. }
  destruct Hmade as [Hstore Hestimator]. split; [done|]. split; [done|].
  intros env args h1. unfold __call__. rewrite Hestimator.
  repeat (case_match; simplify_eq; cbn [fst snd]; eauto 10).
Qed.

(** C3, as amended.  For a function that declares a positional-only
    parameter and neither a variadic positional nor a variadic keyword
    parameter, [__init__] raises a [ValueError]; when it declares a
    variadic parameter, [_validate_function_signature] returns without
    looking at the kinds of the parameters. *)
Theorem positional_only_rejected a h :
  let signature := fn_signature (init_function a) in
  (exists arg, arg ∈ args signature /\ kind arg.2 = POSITIONAL_ONLY) ->
  if has_var_arg signature || has_var_kwarg signature then
    _validate_function_signature signature = None
  else
    exists msg, (init a h).2 = inl (ValueError msg).
Proof.
  intros signature (arg & Harg & Hkind).
  destruct (has_var_arg signature || has_var_kwarg signature) eqn:Hvar.
  { unfold _validate_function_signature. now rewrite Hvar. }
  assert (Hvalidate : exists msg,
             _validate_function_signature signature = Some (ValueError msg)).
  { unfold _validate_function_signature. rewrite Hvar.
    destruct (existsb _ (args signature)) eqn:Hexists; [eauto|].
    apply not_true_iff_false in Hexists. exfalso. apply Hexists.
    apply existsb_exists. exists arg.
    split; [now apply list_elem_of_In|]. now rewrite Hkind. }
  destruct Hvalidate as [msg Hvalidate].
  destruct (init a h) as [h' [e|self]] eqn:Hinit.
  { destruct (__init___raises _ _ _ _ Hinit) as [msg' ->]. eauto. }
  exfalso. revert Hinit. unfold __init__. fold signature.
  rewrite Hvalidate.
  repeat (case_match; simplify_eq; eauto); intros; simplify_eq.
Qed.

(** C5.  With no backend configured, [__call__] returns what the function
    returns on the same arguments; it leaves the store alone and logs one
    record. *)
Theorem sequential_without_backend self (frames : list Frame) (args : Args V) h :
  let r := call self {| parallel_backend := None; callers := frames |} args h in
  r.2 = fn_call (function self) args /\
  r.1.1 = h /\
  exists msg, r.1.2 = [Debug msg] \/ r.1.2 = [Warning msg].
Proof.
  unfold __call__. cbn [parallel_backend callers negb andb].
  rewrite andb_true_r.
  destruct (is_nested_parallelism _ _); cbn [fst snd]; eauto.
Qed.

(** C6.  When a frame of [apply_function] of this module is on the call
    stack and the backend, if there is one, does not allow nested tasks,
    [__call__] runs the function on the original arguments and returns its
    result; the session is not run and the store is left alone. *)
Theorem nested_call_runs_sequentially self env (args : Args V) h :
  (exists frame, frame ∈ callers env /\
                 co_name frame = "apply_function" /\
                 co_filename frame = __file__) ->
  (forall backend, parallel_backend env = Some backend ->
                   allows_nested_tasks backend = false) ->
  call self env args h =
    (h,
     [Debug ("backend does not support nested parallelism. Running " +:+
             fn_name (function self) +:+ " sequentially.")],
     fn_call (function self) args).
Proof.
  intros (frame & Hin & Hname & Hfile) Hbackend.
  assert (Hnested : forall frames,
            frame ∈ frames -> is_nested_parallelism __file__ frames = true).
  { induction frames as [|f frames IH]; intros Hf.
    - now apply not_elem_of_nil in Hf.
    - cbn [is_nested_parallelism].
      apply elem_of_cons in Hf as [<-|Hf].
      + now rewrite Hname, Hfile, !String.eqb_refl.
      + rewrite (IH Hf). now destruct (_ && _). }
  unfold __call__.
  rewrite (Hnested _ (list_elem_of_further _ _ _
                        (list_elem_of_further _ _ _ Hin))).
  destruct (parallel_backend env) as [backend|]; [|done].
  now rewrite (Hbackend backend).
Qed.

(** C8.  When both [initial_partition_size] and [fixed_partition_size] are
    given, [__init__] raises a [ValueError] and makes no estimator. *)
Theorem both_sizes_rejected a h (initial fixed : size_argument V) :
  init_initial_partition_size a = Some initial ->
  init_fixed_partition_size a = Some fixed ->
  exists msg, init a h = (h, inl (ValueError msg)).
Proof.
  intros Hinitial Hfixed.
  unfold __init__, _partition_size_validator. rewrite Hinitial, Hfixed.
  destruct initial, fixed;
    cbn [_legacy_partition_size is_int is_callable is_None negb andb];
    repeat (case_match; simplify_eq; eauto).
Qed.

End ControllerClaims.

(** The bounds of C1 on the co-partitioned dataframes of seven rows, grouped
    by their only key. *)
Lemma partition_size_bounds_witness :
  Forall (fun size => 0 < size) [3; 3; 3] /\
  Forall (fun p => 1 <= actual_size p <= requested_size p)
         (Dataframe.partitions_by_row
            [Dataframe.two_rows_one_key] [3; 3; 3]).1 /\
  Forall (fun p => 1 <= actual_size p < requested_size p + 2)
         (Dataframe.partitions_by_group Dataframe.groupby_key tt
            [Dataframe.two_rows_one_key] [3; 3; 3]).1.
Proof.
  assert (Hsizes : Forall (fun size => 0 < size) [3; 3; 3]).
  { repeat constructor. }
  split; [exact Hsizes|].
  apply (partition_size_bounds Dataframe.groupby_key tt
           [Dataframe.two_rows_one_key] [3; 3; 3] 2 Hsizes).
  repeat constructor.
Defined.

(** C1 fails for [df_by_group]: asked for one row, it yields the two rows of
    the group of key 1. *)
Lemma df_by_group_exceeds_requested_size :
  ~ Forall (fun p => 1 <= actual_size p <= requested_size p)
      (Dataframe.partitions_by_group Dataframe.groupby_key tt
         [Dataframe.two_rows_one_key] [1; 1]).1.
Proof.
  intros Hall. vm_compute in Hall.
  inversion Hall as [|p parts [_ Hle] _]. now apply Hle.
Qed.

(** Scenario 2: two dataframes of seven rows, sizes of three. *)
Lemma df_by_row_cover_witness :
  let dfs := [Dataframe.seven_rows; Dataframe.seven_squares] in
  let r := Dataframe.partitions_by_row dfs [3; 3; 3; 3; 3; 3; 3; 3] in
  Dataframe.co_partitioned 7 dfs /\
  Forall (fun size => 0 < size) [3; 3; 3; 3; 3; 3; 3; 3] /\
  r.2 = Exhausted /\
  Dataframe.total_actual_size r.1 = 7 /\
  (forall j df, dfs !! j = Some df ->
     Dataframe.pd_concat (Dataframe.column j r.1) = df) /\
  r.1 <> [].
Proof.
  intros dfs r.
  assert (Hco : Dataframe.co_partitioned 7 dfs).
  { split; [discriminate|].
    repeat (constructor; [eexists; split; reflexivity|]). constructor. }
  assert (Hsizes : Forall (fun size => 0 < size) [3; 3; 3; 3; 3; 3; 3; 3]).
  { repeat constructor. }
  destruct (df_by_row_cover 7 dfs [3; 3; 3; 3; 3; 3; 3; 3] Hco Hsizes)
    as (Hend & Hcover & Hsome).
  assert (Hex : r.2 = Exhausted) by (apply Hend; cbn [length]; lia).
  destruct (Hcover Hex) as [Hsum Hcol].
  split; [exact Hco|]. split; [exact Hsizes|]. split; [exact Hex|].
  split; [exact Hsum|]. split; [exact Hcol|].
  apply Hsome; [lia|discriminate].
Defined.

(** Scenario 1 in small: seven rows, fixed size three. *)
Lemma df_by_row_fixed_size_witness :
  let r := Dataframe.partitions_by_row [Dataframe.seven_rows] (replicate 8 3) in
  1 <= 3 /\
  Forall (fun p => actual_size p = 3) (removelast r.1) /\
  (forall p, last r.1 = Some p -> 1 <= actual_size p <= 3) /\
  r.2 = Exhausted.
Proof.
  intros r.
  assert (Hk : 1 <= 3) by lia.
  destruct (df_by_row_fixed_size [Dataframe.seven_rows] 3 8 Hk)
    as (Hall & Hlast & Hend).
  split; [exact Hk|]. split; [exact Hall|]. split; [exact Hlast|].
  apply (Hend 7%nat); [|lia].
  split; [discriminate|].
  repeat (constructor; [eexists; split; reflexivity|]). constructor.
Defined.

(** Scenario 4: inputs of seven and of eight rows. *)
Lemma invalid_dfs_raise_witness :
  let dfs := [Dataframe.seven_rows; Dataframe.eight_rows] in
  (dfs = [] \/
   Dataframe.NotDataFrame ∈ dfs \/
   (exists rows1 rows2,
       Dataframe.DataFrame rows1 ∈ dfs /\ Dataframe.DataFrame rows2 ∈ dfs /\
       length rows1 <> length rows2)) /\
  exists msg,
    Dataframe.partitions_by_row dfs [3; 3; 3] = ([], Failed (ValueError msg)) /\
    Dataframe.partitions_by_group (fun (_ : unit) rows => [rows]) tt dfs [3; 3; 3]
      = ([], Failed (ValueError msg)).
Proof.
  intros dfs.
  assert (Hbad : dfs = [] \/
     Dataframe.NotDataFrame ∈ dfs \/
     (exists rows1 rows2,
         Dataframe.DataFrame rows1 ∈ dfs /\ Dataframe.DataFrame rows2 ∈ dfs /\
         length rows1 <> length rows2)).
  { right; right. eexists _, _.
    split; [apply list_elem_of_here|].
    split; [apply list_elem_of_further, list_elem_of_here|].
    cbn [length]. lia. }
  split; [exact Hbad|].
  apply (invalid_dfs_raise (fun (_ : unit) rows => [rows]) tt dfs [3; 3; 3] Hbad).
Defined.

(** The object built for [total] in an empty store. *)
Example example_init_total :
  ParallelFunction.example_init
    (ParallelFunction.init_arguments ParallelFunction.total None None) []
  = ([ParallelFunction.new_estimator tt], inr ParallelFunction.parallel_total).
Proof. reflexivity. Qed.

(** C2 on [total]: the estimator is made by [__init__] and every session
    runs on it. *)
Lemma estimator_made_at_construction_witness :
  let a := ParallelFunction.init_arguments ParallelFunction.total None None in
  ParallelFunction.init_fixed_partition_size a = None /\
  ParallelFunction.example_init a []
    = ([ParallelFunction.new_estimator tt], inr ParallelFunction.parallel_total) /\
  ParallelFunction._partition_size_estimator ParallelFunction.parallel_total
    = Some 0%nat /\
  forall env args h1,
    let r := ParallelFunction.example_call ParallelFunction.parallel_total
               env args h1 in
    r.1.1 = h1 \/
    exists backend nested_backend preloaded generator initial fixed,
      r = ParallelFunction.observing_session ParallelFunction.parallel_total
            backend nested_backend preloaded generator (Some 0%nat)
            initial fixed h1.
Proof.
  intros a.
  assert (Hfixed : ParallelFunction.init_fixed_partition_size a = None)
    by reflexivity.
  assert (Hinit : ParallelFunction.example_init a []
            = ([ParallelFunction.new_estimator tt],
               inr ParallelFunction.parallel_total)) by reflexivity.
  destruct (estimator_made_at_construction
              ParallelFunction.module_file (fun backend : bool => backend)
              (fun _ _ => tt) ParallelFunction.pass_arguments
              ParallelFunction.split_each_value
              ParallelFunction.preload_arguments
              ParallelFunction.observing_session
              a [] _ _ Hfixed Hinit) as (_ & Hestimator & Hcalls).
  split; [exact Hfixed|]. split; [exact Hinit|]. split; [exact Hestimator|].
  exact Hcalls.
Defined.

(** C2 fails: the second invocation finds, in the estimator of the object,
    the three partition sizes the first invocation observed, and adds its
    own to them. *)
Lemma estimator_state_carries_over :
  let self := ParallelFunction.parallel_total in
  let h0 := [ParallelFunction.new_estimator tt] in
  let first :=
    ParallelFunction.example_call self ParallelFunction.on_the_client
      ParallelFunction.three_values h0 in
  let second :=
    ParallelFunction.example_call self ParallelFunction.on_the_client
      ParallelFunction.three_values first.1.1 in
  ParallelFunction.example_init
    (ParallelFunction.init_arguments ParallelFunction.total None None) []
    = (h0, inr self) /\
  ParallelFunction.fixed_partition_size self = None /\
  first.1.1 !! 0%nat = Some [1; 1; 1] /\
  first.1.1 !! 0%nat <> Some (ParallelFunction.new_estimator tt) /\
  second.1.1 !! 0%nat = Some [1; 1; 1; 1; 1; 1].
Proof.
  repeat split; try reflexivity. discriminate.
Qed.

(** C3 on [def negate(x, /)]. *)
Lemma positional_only_rejected_witness :
  let a := ParallelFunction.init_arguments ParallelFunction.negate None None in
  (exists arg,
      arg ∈ ParallelFunction.args
              (ParallelFunction.fn_signature (ParallelFunction.init_function a)) /\
      ParallelFunction.kind arg.2 = ParallelFunction.POSITIONAL_ONLY) /\
  exists msg, (ParallelFunction.example_init a []).2 = inl (ValueError msg).
Proof.
  intros a.
  assert (Hdeclares : exists arg,
      arg ∈ ParallelFunction.args
              (ParallelFunction.fn_signature (ParallelFunction.init_function a)) /\
      ParallelFunction.kind arg.2 = ParallelFunction.POSITIONAL_ONLY).
  { eexists. split; [apply list_elem_of_here|reflexivity]. }
  split; [exact Hdeclares|].
  exact (positional_only_rejected (fun _ _ => tt) a [] Hdeclares).
Defined.

(** C3 fails on [def scale(x, /, *values)]: the object is built. *)
Lemma positional_only_accepted_with_var_args :
  let a := ParallelFunction.init_arguments ParallelFunction.scale None None in
  (exists arg,
      arg ∈ ParallelFunction.args
              (ParallelFunction.fn_signature (ParallelFunction.init_function a)) /\
      ParallelFunction.kind arg.2 = ParallelFunction.POSITIONAL_ONLY) /\
  ~ exists e, (ParallelFunction.example_init a []).2 = inl e.
Proof.
  split.
  - eexists. split; [apply list_elem_of_here|reflexivity].
  - intros [e He]. discriminate He.
Qed.

(** C6 on a call of [total] made from inside a task. *)
Lemma nested_call_runs_sequentially_witness :
  let env := ParallelFunction.inside_a_task in
  (exists frame,
      frame ∈ ParallelFunction.callers env /\
      ParallelFunction.co_name frame = "apply_function" /\
      ParallelFunction.co_filename frame = ParallelFunction.module_file) /\
  (forall backend : bool,
      ParallelFunction.parallel_backend env = Some backend -> backend = false) /\
  ParallelFunction.example_call ParallelFunction.parallel_total env
    ParallelFunction.three_values [[]]
  = ([[]],
     [Debug "backend does not support nested parallelism. Running total sequentially."],
     Returned 18).
Proof.
  intros env.
  assert (Hframe : exists frame,
      frame ∈ ParallelFunction.callers env /\
      ParallelFunction.co_name frame = "apply_function" /\
      ParallelFunction.co_filename frame = ParallelFunction.module_file).
  { eexists. split; [apply list_elem_of_further, list_elem_of_here|].
    split; reflexivity. }
  assert (Hbackend : forall backend : bool,
      ParallelFunction.parallel_backend env = Some backend -> backend = false).
  { intros backend [= <-]. reflexivity. }
  split; [exact Hframe|]. split; [exact Hbackend|].
  exact (nested_call_runs_sequentially
           ParallelFunction.module_file (fun backend : bool => backend)
           ParallelFunction.pass_arguments ParallelFunction.split_each_value
           ParallelFunction.preload_arguments ParallelFunction.observing_session
           ParallelFunction.parallel_total env ParallelFunction.three_values [[]]
           Hframe Hbackend).
Defined.

(** Scenario 5: [initial_partition_size=10, fixed_partition_size=20]. *)
Lemma both_sizes_rejected_witness :
  let a :=
    ParallelFunction.init_arguments ParallelFunction.total
      (Some (ParallelFunction.SizeInt 10)) (Some (ParallelFunction.SizeInt 20)) in
  ParallelFunction.init_initial_partition_size a
    = Some (ParallelFunction.SizeInt 10) /\
  ParallelFunction.init_fixed_partition_size a
    = Some (ParallelFunction.SizeInt 20) /\
  exists msg, ParallelFunction.example_init a [] = ([], inl (ValueError msg)).
Proof.
  intros a. split; [reflexivity|]. split; [reflexivity|].
  exact (both_sizes_rejected (fun _ _ => tt) a [] _ _ eq_refl eq_refl).
Defined.

(** * Further properties of the partitioners *)

Section DriverMore.
Context {G P : Type}.
Variable gen_send : G -> option Z -> resumed G (option (Z * P)).

(** When a resumption either yields a partition with [Q] or leaves the
    generator where nothing more is yielded, every partition of a run but
    the last has [Q]. *)
Lemma send_all_removelast (Q : partition P -> Prop) :
  (forall g size actual p g',
      gen_send g (Some size) = Yields (Some (actual, p)) g' ->
      Q (Partition size actual p) \/
      forall sizes, (send_all gen_send g' sizes).1 = []) ->
  forall sizes g, Forall Q (removelast (send_all gen_send g sizes).1).
Proof.
  intros Hstep. induction sizes as [|size rest IH]; intros g; [constructor|].
  destruct (gen_send g (Some size)) as [[[actual p]|] g'| |e] eqn:Hsend;
    try (simpl; rewrite Hsend; constructor).
  rewrite (send_all_yields _ _ _ _ _ _ _ Hsend). cbn [fst].
  destruct (send_all gen_send g' rest).1 as [|q parts] eqn:Hparts.
  { constructor. }
  change (removelast (Partition size actual p :: q :: parts))
    with (Partition size actual p :: removelast (q :: parts)).
  constructor.
  - destruct (Hstep _ _ _ _ _ Hsend) as [HQ|Hnone]; [done|].
    now rewrite Hnone in Hparts.
  - rewrite <- Hparts. apply IH.
Qed.

End DriverMore.

Section RowMore.
Import Dataframe Streams.
Context {Row : Type}.
Implicit Types (dfs : list (value Row)) (rows : list Row) (sizes : list Z).

Lemma consecutive_from dfs sizes : forall st (pos : Z),
  match st with
  | RowCreated => False
  | RowPrimed => pos = 0
  | RowInLoop _ range_end => pos = range_end
  | RowAtTail => True
  end ->
  consecutive_chunks dfs pos
    (send_all df_by_row_send (RowGenerator dfs st) sizes).1.
Proof.
  induction sizes as [|size rest IH]; intros st pos Hpos; [done|].
  destruct (df_by_row_send (RowGenerator dfs st) (Some size))
    as [[[actual p]|] g'| |e] eqn:Hsend;
    try (simpl; rewrite Hsend; done).
  rewrite (send_all_yields _ _ _ _ _ _ _ Hsend). cbn [fst consecutive_chunks].
  cbn [payload actual_size].
  revert Hsend. destruct st as [| |range_start range_end|];
    unfold df_by_row_send, df_by_row_loop; cbn [row_dfs row_state_of];
    try done; subst pos; repeat case_ltb; intros [= <- <- <-];
    (split; [f_equal; lia|]); apply IH; cbn; lia || done.
Qed.

(** X1.  Whatever the dataframes and the sizes sent, every partition of
    [df_by_row] is the slice [iloc[start:start + actual_size]] of each
    dataframe, where [start] is the sum of the [actual_size]s of the
    partitions yielded before it. *)
Theorem df_by_row_consecutive dfs sizes :
  consecutive_chunks dfs 0 (partitions_by_row dfs sizes).1.
Proof.
  destruct (__validate_dfs_parameter dfs) as [e|] eqn:Hvalid.
  { now rewrite (partitions_by_row_invalid _ _ _ Hvalid). }
  rewrite (partitions_by_row_primed _ _ Hvalid).
  now apply consecutive_from.
Qed.

Lemma slice_length rows a b :
  0 <= a <= b -> b <= Z.of_nat (length rows) ->
  Z.of_nat (length (slice rows a b)) = b - a.
Proof.
  intros Ha Hb. rewrite slice_in_range by lia.
  rewrite length_take, length_drop. lia.
Qed.

Lemma dfs_chunk_co_partition (n : nat) dfs requested a b :
  co_partitioned n dfs -> 0 <= a <= b -> b <= Z.of_nat n ->
  co_partition dfs (Partition requested (b - a) (dfs_chunk dfs a b)).
Proof.
  intros [_ Hall] Ha Hb. split; cbn [payload actual_size].
  - unfold dfs_chunk. apply length_fmap.
  - unfold dfs_chunk. apply Forall_fmap. eapply Forall_impl; [exact Hall|].
    intros df (rows & -> & Hlen). cbn. eexists. split; [done|].
    apply slice_length; lia.
Qed.

(** X2.  On dataframes of [n] rows each and positive requested sizes, every
    partition of [df_by_row] carries one dataframe for each input, and each
    of them has exactly [actual_size] rows. *)
Theorem df_by_row_co_partition (n : nat) dfs sizes :
  co_partitioned n dfs ->
  Forall (fun size => 0 < size) sizes ->
  Forall (co_partition dfs) (partitions_by_row dfs sizes).1.
Proof.
  intros Hco Hsizes.
  destruct (co_partitioned_valid _ _ Hco) as [Hvalid Hn].
  rewrite (partitions_by_row_primed _ _ Hvalid).
  apply (send_all_Forall df_by_row_send
           (fun g => row_dfs g = dfs /\
                     exists pos, row_position (Z.of_nat n) (row_state_of g) pos /\
                                 0 <= pos <= Z.of_nat n));
    [|split; [done|exists 0; split; [done|lia]]|done].
  intros [dfs' st] size actual p g' [Hdfs (pos & Hpos & Hrange)] Hsize.
  cbn in Hdfs, Hpos. subst dfs'.
  pose proof (df_by_row_send_at dfs st pos size) as Hstep.
  cbn zeta in Hstep. rewrite Hn in Hstep. rewrite (Hstep Hpos Hsize).
  repeat case_ltb; intros [= <- <- <-]; cbn [row_dfs row_state_of].
  - split; [|split; [done|exists (pos + size); cbn; split; [done|lia]]].
    replace size with ((pos + size) - pos) at 2 by lia.
    apply (dfs_chunk_co_partition n); [done|lia|lia].
  - split; [|split; [done|exists (Z.of_nat n); cbn; split; [done|lia]]].
    apply (dfs_chunk_co_partition n); [done|lia|lia].
Qed.

Lemma row_count_from (n : nat) dfs k :
  1 <= k -> shape0 (hd NotDataFrame dfs) = Z.of_nat n ->
  forall count st pos,
    row_position (Z.of_nat n) st pos -> 0 <= pos <= Z.of_nat n ->
    Z.of_nat n - pos < Z.of_nat count ->
    Z.of_nat (length (send_all df_by_row_send (RowGenerator dfs st)
                               (replicate count k)).1)
    = (Z.of_nat n - pos + k - 1) / k.
Proof.
  intros Hk Hn. induction count as [|count IH]; intros st pos Hpos Hrange Hcount.
  { lia. }
  cbn [replicate].
  pose proof (df_by_row_send_at dfs st pos k) as Hstep.
  cbn zeta in Hstep. rewrite Hn in Hstep.
  assert (Hk0 : 0 < k) by lia. specialize (Hstep Hpos Hk0).
  destruct (Z.ltb_spec (pos + k) (Z.of_nat n)).
  - rewrite (send_all_yields _ _ _ _ _ _ _ Hstep). cbn [fst length].
    rewrite Nat2Z.inj_succ, (IH (RowInLoop pos (pos + k)) (pos + k));
      [|cbn; lia|lia|lia].
    replace (Z.of_nat n - pos + k - 1)
      with ((Z.of_nat n - (pos + k) + k - 1) + 1 * k) by lia.
    rewrite Z.div_add by lia. lia.
  - destruct (Z.ltb_spec pos (Z.of_nat n)).
    + rewrite (send_all_yields _ _ _ _ _ _ _ Hstep). cbn [fst length].
      assert (Hnone : (send_all df_by_row_send (RowGenerator dfs RowAtTail)
                         (replicate count k)).1 = []).
      { destruct count; [done|]. done. }
      rewrite Hnone. cbn [length].
      change (Z.of_nat 1) with 1.
      apply (Z.div_unique _ _ 1 (Z.of_nat n - pos - 1)); lia.
    + rewrite (send_all_stops _ _ _ _ Hstep). cbn [fst length].
      change (Z.of_nat 0) with 0. symmetry. apply Z.div_small. lia.
Qed.

(** X3.  With one fixed size [k >= 1] sent more than [n] times, [df_by_row]
    cuts dataframes of [n] rows into exactly [ceil(n / k)] partitions. *)
Theorem df_by_row_partition_count (n : nat) dfs (k : Z) (count : nat) :
  co_partitioned n dfs -> 1 <= k -> (n < count)%nat ->
  Z.of_nat (length (partitions_by_row dfs (replicate count k)).1)
  = (Z.of_nat n + k - 1) / k.
Proof.
  intros Hco Hk Hcount.
  destruct (co_partitioned_valid _ _ Hco) as [Hvalid Hn].
  rewrite (partitions_by_row_primed _ _ Hvalid).
  rewrite (row_count_from n dfs k Hk Hn count RowPrimed 0); [|done|lia|lia].
  f_equal. lia.
Qed.

Lemma zero_requests_from dfs count : forall st,
  0 < shape0 (hd NotDataFrame dfs) ->
  st = RowPrimed \/ st = RowInLoop 0 0 ->
  send_all df_by_row_send (RowGenerator dfs st) (replicate count 0)
  = (replicate count (Partition 0 0 (dfs_chunk dfs 0 0)), Pending).
Proof.
  induction count as [|count IH]; intros st Hrows Hst; [done|].
  cbn [replicate].
  assert (Hsend : df_by_row_send (RowGenerator dfs st) (Some 0)
            = Yields (Some (0, dfs_chunk dfs 0 0))
                     (RowGenerator dfs (RowInLoop 0 0))).
  { destruct Hst as [-> | ->]; unfold df_by_row_send, df_by_row_loop;
      cbn [row_dfs row_state_of Z.add]; case_ltb; done || lia. }
  rewrite (send_all_yields _ _ _ _ _ _ _ Hsend).
  rewrite (IH (RowInLoop 0 0)); [done|done|now right].
Qed.

(** X4.  A requested size of zero does not advance [df_by_row]: on
    dataframes with at least one row, sending zero [count] times yields
    [count] partitions of [actual_size] zero, each the empty slice
    [iloc[0:0]], and the generator is still not exhausted. *)
Theorem df_by_row_zero_requests (n : nat) dfs (count : nat) :
  co_partitioned n dfs -> (1 <= n)%nat ->
  partitions_by_row dfs (replicate count 0)
  = (replicate count (Partition 0 0 (dfs_chunk dfs 0 0)), Pending) /\
  Forall (fun df => df = DataFrame []) (dfs_chunk dfs 0 0).
Proof.
  intros Hco Hn.
  destruct (co_partitioned_valid _ _ Hco) as [Hvalid Hrows].
  rewrite (partitions_by_row_primed _ _ Hvalid). split.
  - apply zero_requests_from; [lia|now left].
  - destruct Hco as [_ Hall]. unfold dfs_chunk. apply Forall_fmap.
    eapply Forall_impl; [exact Hall|].
    intros df (rows & -> & _). cbn. f_equal.
    rewrite slice_in_range by lia. done.
Qed.

End RowMore.

Section GroupMore.
Import Dataframe Streams.
Context {Row GroupBy : Type}.
Variable groupby : GroupBy -> list Row -> list (list Row).
Implicit Types (dfs : list (value Row)) (it run acc : list (list (value Row))).
Implicit Types (group : list (value Row)) (sizes : list Z).

Lemma zip_star_upto_lengths {A} n : forall (ls : list (list A)),
  Forall (fun t => length t = length ls) (zip_star_upto n ls).
Proof.
  induction n as [|n IH]; intros ls; [constructor|].
  cbn [zip_star_upto].
  destruct (mapM head ls) as [hs|] eqn:Hheads; [|constructor].
  constructor.
  - symmetry. now apply length_mapM in Hheads.
  - specialize (IH (tail <$> ls)). now rewrite length_fmap in IH.
Qed.

Lemma zipped_groups_lengths (by_ : GroupBy) dfs :
  Forall (fun group => length group = length dfs)
         (zipped_groups groupby by_ dfs).
Proof.
  unfold zipped_groups, zip_star.
  destruct dfs as [|df dfs]; [constructor|]. cbn [fmap list_fmap].
  pose proof (zip_star_upto_lengths
                (length (DataFrame <$> groupby by_ (rows_of df)))
                ((DataFrame <$> groupby by_ (rows_of df)) ::
                 ((fun df => DataFrame <$> groupby by_ (rows_of df)) <$> dfs)))
    as Hlen.
  cbn [length] in Hlen. now rewrite length_fmap in Hlen.
Qed.

Lemma fresh_chunked_group_of dfs :
  fresh_chunked_group dfs = chunked_group_of dfs [].
Proof.
  unfold fresh_chunked_group, chunked_group_of.
  rewrite (const_fmap _ (seq 0 (length dfs)) []) by done.
  now rewrite length_seq.
Qed.

Lemma chunked_group_of_snoc dfs run group :
  length group = length dfs ->
  zip_with (fun chunked_dfs group_df => chunked_dfs ++ [group_df])
           (chunked_group_of dfs run) group
  = chunked_group_of dfs (run ++ [group]).
Proof.
  intros Hlen. apply list_eq. intros j. unfold chunked_group_of.
  rewrite lookup_zip_with, !list_lookup_fmap.
  destruct (decide (j < length dfs)%nat) as [Hj|Hj].
  - rewrite lookup_seq_lt by done. cbn.
    destruct (lookup_lt_is_Some_2 group j) as [v Hv]; [lia|].
    rewrite Hv. cbn. rewrite fmap_app. cbn.
    now rewrite (nth_lookup_Some _ _ _ _ Hv).
  - rewrite lookup_seq_ge by lia. done.
Qed.

Lemma concat_chunked_group_of dfs run :
  concat_chunked_group_dfs (chunked_group_of dfs run) = chunk_of_groups dfs run.
Proof.
  unfold concat_chunked_group_dfs, chunked_group_of, chunk_of_groups.
  now rewrite <- list_fmap_compose.
Qed.

Lemma rows_in_app run1 run2 :
  rows_in (run1 ++ run2) = rows_in run1 + rows_in run2.
Proof.
  unfold rows_in. induction run1 as [|group run1 IH]; cbn [app foldr]; [lia|].
  rewrite IH. lia.
Qed.

Lemma uniform_group_check group :
  existsb (fun group_df =>
             negb (shape0 group_df =? shape0 (hd NotDataFrame group)))
          (tl group) = false <-> uniform_group group.
Proof.
  unfold uniform_group, group_rows. rewrite <- not_true_iff_false.
  rewrite existsb_exists, Forall_forall. split.
  - intros Hnone v Hv.
    destruct (Z.eq_dec (shape0 v) (shape0 (hd NotDataFrame group)))
      as [Heq|Hneq]; [done|].
    exfalso. apply Hnone. exists v. split; [now apply list_elem_of_In|].
    now apply negb_true_iff, Z.eqb_neq.
  - intros Hall (v & Hv & Hneg). apply list_elem_of_In, Hall in Hv.
    apply negb_true_iff, Z.eqb_neq in Hneg. done.
Qed.

(** What one pass through the loop of [df_by_group] does with the groups
    still to come, when [acc] was appended before. *)
Lemma df_by_group_loop_spec (by_ : GroupBy) dfs (target : Z) : forall it acc,
  Forall (fun group => length group = length dfs) it ->
  let r := df_by_group_loop by_ dfs it (chunked_group_of dfs acc)
                            (rows_in acc) (Some target) in
  (forall actual p g', r = Yields (Some (actual, p)) g' ->
     exists run rest,
       it = run ++ rest /\ Forall uniform_group run /\
       actual = rows_in (acc ++ run) /\
       p = chunk_of_groups dfs (acc ++ run) /\
       ((g' = GroupGenerator by_ dfs (GroupInLoop rest) /\
         run <> [] /\ target <= actual) \/
        (g' = GroupGenerator by_ dfs GroupAtTail /\
         rest = [] /\ 0 < actual))) /\
  (forall g', r <> Yields None g') /\
  (r = Stops -> Forall uniform_group it /\ rows_in (acc ++ it) <= 0) /\
  (forall e, r = Raises e ->
     e = ValueError "all dataframe group sizes should be identical." /\
     ~ Forall uniform_group it).
Proof.
  induction it as [|group it IH]; intros acc Hlen r; subst r;
    cbn [df_by_group_loop].
  - rewrite Z.gtb_ltb. case_ltb; (split; [|split; [|split]]); try done.
    + intros actual p g' [= <- <- <-]. exists [], [].
      rewrite !app_nil_r, concat_chunked_group_of. auto 10.
    + intros _. rewrite app_nil_r. split; [constructor|lia].
  - apply Forall_cons in Hlen as [Hgroup Hlen].
    destruct (existsb _ (tl group)) eqn:Hcheck.
    { (split; [|split; [|split]]); try done.
      intros e [= <-]. split; [done|].
      intros Hall. apply Forall_cons in Hall as [Hu _].
      apply uniform_group_check in Hu. congruence. }
    apply uniform_group_check in Hcheck.
    rewrite chunked_group_of_snoc by done.
    replace (rows_in acc + shape0 (hd NotDataFrame group))
      with (rows_in (acc ++ [group]))
      by (rewrite rows_in_app; cbn; unfold group_rows; lia).
    rewrite Z.geb_leb. case_ltb.
    + (split; [|split; [|split]]); try done.
      intros actual p g' [= <- <- <-]. exists [group], it.
      rewrite concat_chunked_group_of. split; [done|].
      split; [now constructor|]. split; [done|]. split; [done|].
      left. auto.
    + destruct (IH (acc ++ [group]) Hlen) as (Hyield & Hnone & Hstops & Hraise).
      split; [|split; [|split]].
      * intros actual p g' Hr.
        destruct (Hyield _ _ _ Hr) as (run & rest & -> & Hu & -> & -> & Hg').
        exists (group :: run), rest. rewrite <- !app_assoc. cbn [app].
        split; [done|]. split; [now constructor|]. split; [done|].
        split; [done|].
        destruct Hg' as [(-> & _ & Hle)|(-> & -> & Hpos)].
        -- left. rewrite <- app_assoc in Hle. auto.
        -- right. rewrite <- app_assoc in Hpos. auto.
      * done.
      * intros Hr. destruct (Hstops Hr) as [Hu Hrows].
        split; [now constructor|]. now rewrite <- app_assoc in Hrows.
      * intros e Hr. destruct (Hraise _ Hr) as [-> Hnot]. split; [done|].
        intros Hall. apply Forall_cons in Hall as [_ Hall]. done.
Qed.

Lemma group_runs_from (by_ : GroupBy) dfs sizes : forall st,
  st <> GroupCreated ->
  Forall (fun group => length group = length dfs) (remaining_groups st) ->
  let r := send_all (df_by_group_send groupby) (GroupGenerator by_ dfs st) sizes in
  (exists runs leftover,
      remaining_groups st = concat runs ++ leftover /\
      Forall2 (made_of dfs) r.1 runs /\
      (r.2 = Exhausted ->
         Forall uniform_group leftover /\ rows_in leftover <= 0)) /\
  (forall e, r.2 = Failed e ->
     e = ValueError "all dataframe group sizes should be identical." /\
     ~ Forall uniform_group (remaining_groups st)) /\
  (length (remaining_groups st) + 1 < length sizes -> r.2 <> Pending)%nat.
Proof.
  induction sizes as [|size rest IH]; intros st Hst Hlen.
  { cbn [send_all fst snd]. split; [|split]; [|done|cbn [length]; lia].
    exists [], (remaining_groups st). split; [done|]. split; [constructor|done]. }
  assert (Hcases : st = GroupAtTail \/
            df_by_group_send groupby (GroupGenerator by_ dfs st) (Some size)
            = df_by_group_loop by_ dfs (remaining_groups st)
                (chunked_group_of dfs []) (rows_in (Row:=Row) []) (Some size)).
  { destruct st; [done| right | right | now left];
      unfold df_by_group_send;
      cbn [group_by group_dfs group_state_of remaining_groups];
      now rewrite fresh_chunked_group_of. }
  destruct Hcases as [->|Hloop].
  { cbn. split; [|split]; [|done|done].
    exists [], []. split; [done|]. split; [constructor|].
    intros _. split; [constructor|done]. }
  destruct (df_by_group_loop_spec by_ dfs size (remaining_groups st) [] Hlen)
    as (Hyield & Hnone & Hstops & Hraise).
  rewrite <- Hloop in Hyield, Hnone, Hstops, Hraise. cbn zeta in *.
  destruct (df_by_group_send groupby (GroupGenerator by_ dfs st) (Some size))
    as [[[actual p]|] g'| |e] eqn:Hresult.
  - (* a partition *)
    destruct (Hyield _ _ _ eq_refl) as (run & rest' & Hit & Hu & -> & -> & Hg').
    cbn [app] in *.
    rewrite (send_all_yields _ _ _ _ _ _ _ Hresult). cbn [fst snd].
    rewrite Hit in Hlen. apply Forall_app in Hlen as [Hlen_run Hlen_rest].
    assert (Hnext : exists st',
               g' = GroupGenerator by_ dfs st' /\ st' <> GroupCreated /\
               remaining_groups st' = rest' /\ run <> [] /\
               (length rest' < length (remaining_groups st))%nat).
    { destruct Hg' as [(-> & Hrun & _)|(-> & -> & Hpos)].
      - exists (GroupInLoop rest'). repeat split; try done.
        rewrite Hit, length_app. destruct run; [done|cbn; lia].
      - exists GroupAtTail.
        assert (Hrun : run <> []) by (intros ->; cbn in Hpos; lia).
        repeat split; try done.
        rewrite Hit, length_app. destruct run; [done|cbn; lia]. }
    destruct Hnext as (st' & -> & Hst' & Hrem & Hrun & Hshorter).
    destruct (IH st' Hst') as (Hruns & Hfail & Hpending).
    { now rewrite Hrem. }
    split; [|split].
    + destruct Hruns as (runs & leftover & Hrest & Hmade & Hex).
      exists (run :: runs), leftover. split; [|split; [|done]].
      * rewrite Hit, <- Hrem, Hrest. cbn [concat]. now rewrite app_assoc.
      * constructor; [|done]. repeat split; done.
    + intros e He. destruct (Hfail e He) as [-> Hnot]. split; [done|].
      rewrite Hit, Forall_app, <- Hrem. tauto.
    + intros Hmany. apply Hpending. cbn [length] in Hmany. rewrite Hrem. lia.
  - now destruct (Hnone g').
  - rewrite (send_all_stops _ _ _ _ Hresult). cbn [fst snd].
    destruct (Hstops eq_refl) as [Hu Hrows]. split; [|split]; [|done|done].
    exists [], (remaining_groups st). split; [done|]. split; [constructor|done].
  - cbn [send_all]. rewrite Hresult. cbn [fst snd].
    split; [|split]; [| |done].
    + exists [], (remaining_groups st). split; [done|]. split; [constructor|done].
    + intros e' [= <-]. now apply Hraise.
Qed.

Lemma partitions_by_group_runs (by_ : GroupBy) dfs sizes :
  __validate_dfs_parameter dfs = None ->
  let r := partitions_by_group groupby by_ dfs sizes in
  let groups := zipped_groups groupby by_ dfs in
  (exists runs leftover,
      groups = concat runs ++ leftover /\
      Forall2 (made_of dfs) r.1 runs /\
      (r.2 = Exhausted ->
         Forall uniform_group leftover /\ rows_in leftover <= 0)) /\
  (forall e, r.2 = Failed e ->
     e = ValueError "all dataframe group sizes should be identical." /\
     ~ Forall uniform_group groups) /\
  (length groups + 1 < length sizes -> r.2 <> Pending)%nat.
Proof.
  intros Hvalid. rewrite (partitions_by_group_primed _ _ _ _ Hvalid).
  apply (group_runs_from by_ dfs sizes (GroupPrimed (zipped_groups groupby by_ dfs)));
    [done|]. apply zipped_groups_lengths.
Qed.

(** X5.  The generator of [df_by_group] never splits a group: its
    partitions are made, in order, of consecutive runs of whole groups of
    the zipped groups of the dataframes; each run is not empty, the payload
    is the concatenation of its groups, dataframe by dataframe, and
    [actual_size] is the number of rows of the run. *)
Theorem df_by_group_whole_groups (by_ : GroupBy) dfs sizes :
  exists runs,
    concat runs `prefix_of` zipped_groups groupby by_ dfs /\
    Forall2 (made_of dfs) (partitions_by_group groupby by_ dfs sizes).1 runs.
Proof.
  destruct (__validate_dfs_parameter dfs) as [e|] eqn:Hvalid.
  { rewrite (partitions_by_group_invalid _ _ _ _ _ Hvalid).
    exists []. split; [apply prefix_nil|constructor]. }
  destruct (partitions_by_group_runs by_ dfs sizes Hvalid)
    as ((runs & leftover & Hgroups & Hmade & _) & _).
  exists runs. split; [|done]. rewrite Hgroups. now apply prefix_app_r.
Qed.

Lemma shape0_rows_of (v : value Row) :
  shape0 v = Z.of_nat (length (rows_of v)).
Proof. now destruct v. Qed.

Lemma uniform_group_nth group j :
  uniform_group group -> (j < length group)%nat ->
  shape0 (nth j group NotDataFrame) = group_rows group.
Proof.
  unfold uniform_group, group_rows. intros Hu Hj.
  destruct group as [|v group]; [cbn in Hj; lia|].
  destruct j as [|j]; [done|]. cbn [nth hd tl] in *.
  rewrite Forall_forall in Hu. apply Hu, list_elem_of_In, nth_In.
  cbn in Hj. lia.
Qed.

Lemma group_rows_nonneg group : 0 <= group_rows group.
Proof. unfold group_rows. rewrite shape0_rows_of. lia. Qed.

Lemma rows_in_nonneg run : 0 <= rows_in run.
Proof.
  unfold rows_in. induction run as [|group run IH]; cbn [foldr]; [lia|].
  pose proof (group_rows_nonneg group). lia.
Qed.

Lemma column_rows_of_run dfs run j :
  Forall uniform_group run ->
  Forall (fun group => length group = length dfs) run ->
  (j < length dfs)%nat ->
  Z.of_nat (length (concat (rows_of <$>
                      ((fun group => nth j group NotDataFrame) <$> run))))
  = rows_in run.
Proof.
  intros Hu Hlen Hj. unfold rows_in.
  induction run as [|group run IH]; [done|].
  apply Forall_cons in Hu as [Hgroup Hu].
  apply Forall_cons in Hlen as [Hglen Hlen].
  cbn [fmap list_fmap concat foldr]. rewrite length_app, Nat2Z.inj_add.
  change (list_fmap _ _ rows_of (list_fmap _ _ ?f run))
    with (rows_of <$> (f <$> run)).
  rewrite (IH Hu Hlen), <- shape0_rows_of.
  rewrite uniform_group_nth by (done || lia). done.
Qed.

Lemma made_of_co_partition dfs (p : partition (list (value Row))) run :
  made_of dfs p run -> co_partition dfs p.
Proof.
  intros (_ & Hu & Hlen & Hactual & Hpayload). unfold co_partition.
  rewrite Hpayload, Hactual. unfold chunk_of_groups. split.
  - now rewrite length_fmap, length_seq.
  - apply Forall_fmap, Forall_forall. intros j Hj.
    apply elem_of_seq in Hj. cbn. eexists. split; [reflexivity|].
    apply (column_rows_of_run dfs); [done|done|lia].
Qed.

(** X6.  Every partition of the generator of [df_by_group] carries one
    dataframe for each input, each with exactly [actual_size] rows. *)
Theorem df_by_group_co_partition (by_ : GroupBy) dfs sizes :
  Forall (co_partition dfs) (partitions_by_group groupby by_ dfs sizes).1.
Proof.
  destruct (__validate_dfs_parameter dfs) as [e|] eqn:Hvalid.
  { rewrite (partitions_by_group_invalid _ _ _ _ _ Hvalid). constructor. }
  destruct (partitions_by_group_runs by_ dfs sizes Hvalid)
    as ((runs & _ & _ & Hmade & _) & _).
  induction Hmade as [|p run parts runs Hp _ IH]; constructor; [|done].
  now apply (made_of_co_partition dfs p run).
Qed.

Lemma zero_rows_nth group j :
  uniform_group group -> group_rows group = 0 ->
  rows_of (nth j group NotDataFrame) = [].
Proof.
  intros Hu Hzero.
  assert (Hshape : shape0 (nth j group NotDataFrame) = 0).
  { destruct (decide (j < length group)%nat) as [Hj|Hj].
    - now rewrite uniform_group_nth.
    - now rewrite nth_overflow by lia. }
  rewrite shape0_rows_of in Hshape.
  destruct (rows_of _); [done|cbn in Hshape; lia].
Qed.

Lemma zero_rows_column run j :
  Forall uniform_group run -> rows_in run <= 0 ->
  concat (rows_of <$> ((fun group => nth j group NotDataFrame) <$> run)) = [].
Proof.
  unfold rows_in. induction run as [|group run IH]; intros Hu Hrows; [done|].
  apply Forall_cons in Hu as [Hgroup Hu]. cbn [foldr] in Hrows.
  pose proof (group_rows_nonneg group). pose proof (rows_in_nonneg run) as Hrun.
  unfold rows_in in Hrun.
  cbn [fmap list_fmap concat]. rewrite zero_rows_nth by (done || lia).
  cbn [app]. apply IH; [done|lia].
Qed.

Lemma nth_chunk_of_groups dfs run j :
  (j < length dfs)%nat ->
  nth j (chunk_of_groups dfs run) NotDataFrame
  = pd_concat ((fun group => nth j group NotDataFrame) <$> run).
Proof.
  intros Hj. unfold chunk_of_groups.
  rewrite nth_lookup, list_lookup_fmap, lookup_seq_lt by done. done.
Qed.

Lemma made_of_total dfs (parts : list (partition (list (value Row)))) runs :
  Forall2 (made_of dfs) parts runs ->
  total_actual_size parts = rows_in (concat runs).
Proof.
  intros Hmade.
  induction Hmade as [|p run parts runs Hp _ IH]; [done|].
  destruct Hp as (_ & _ & _ & Hactual & _).
  rewrite total_actual_size_cons, IH, Hactual. cbn [concat].
  now rewrite rows_in_app.
Qed.

Lemma made_of_column dfs j (parts : list (partition (list (value Row)))) runs :
  (j < length dfs)%nat ->
  Forall2 (made_of dfs) parts runs ->
  concat (rows_of <$> column j parts)
  = concat (rows_of <$> ((fun group => nth j group NotDataFrame) <$> concat runs)).
Proof.
  intros Hj Hmade.
  induction Hmade as [|p run parts runs Hp _ IH]; [done|].
  destruct Hp as (_ & _ & _ & _ & Hpayload).
  rewrite column_cons, Hpayload, nth_chunk_of_groups by done.
  cbn [concat fmap list_fmap pd_concat rows_of].
  change (list_fmap _ _ rows_of (column j parts))
    with (rows_of <$> column j parts).
  rewrite IH. rewrite !fmap_app, concat_app. done.
Qed.

Lemma made_of_uniform dfs (parts : list (partition (list (value Row)))) runs :
  Forall2 (made_of dfs) parts runs -> Forall uniform_group (concat runs).
Proof.
  intros Hmade.
  induction Hmade as [|p run parts runs Hp _ IH]; [constructor|].
  cbn [concat]. apply Forall_app. split; [|done]. now destruct Hp as (_ & ? & _).
Qed.

(** X7.  When the stream of the generator of [df_by_group] has ended, every
    zipped group had the same number of rows in every dataframe, the
    [actual_size]s sum to the number of rows of the groups, and for each
    input dataframe the payloads concatenate, in order, to the
    concatenation of its groups. *)
Theorem df_by_group_cover (by_ : GroupBy) dfs sizes :
  let r := partitions_by_group groupby by_ dfs sizes in
  let groups := zipped_groups groupby by_ dfs in
  r.2 = Exhausted ->
  Forall uniform_group groups /\
  total_actual_size r.1 = rows_in groups /\
  forall j, (j < length dfs)%nat ->
    concat (rows_of <$> column j r.1)
    = concat (rows_of <$> ((fun group => nth j group NotDataFrame) <$> groups)).
Proof.
  intros r groups Hex. subst r groups.
  destruct (__validate_dfs_parameter dfs) as [e|] eqn:Hvalid.
  { now rewrite (partitions_by_group_invalid _ _ _ _ _ Hvalid) in Hex. }
  destruct (partitions_by_group_runs by_ dfs sizes Hvalid)
    as ((runs & leftover & Hgroups & Hmade & Hleft) & _).
  destruct (Hleft Hex) as [Hu Hzero]. rewrite Hgroups.
  split; [|split].
  - apply Forall_app. split; [|done]. apply (made_of_uniform _ _ _ Hmade).
  - rewrite (made_of_total _ _ _ Hmade), rows_in_app.
    pose proof (rows_in_nonneg leftover). lia.
  - intros j Hj. rewrite (made_of_column dfs j _ _ Hj Hmade).
    rewrite !fmap_app, concat_app, (zero_rows_column leftover j Hu Hzero).
    now rewrite app_nil_r.
Qed.

Lemma df_by_group_loop_reaches (by_ : GroupBy) dfs (target : Z) :
  forall it chunked_group chunked_group_size actual p
         (g' : group_generator Row GroupBy),
    df_by_group_loop by_ dfs it chunked_group chunked_group_size (Some target)
      = Yields (Some (actual, p)) g' ->
    target <= actual \/ group_state_of g' = GroupAtTail.
Proof.
  induction it as [|group it IH];
    intros chunked_group chunked_group_size actual p g';
    cbn [df_by_group_loop].
  - rewrite Z.gtb_ltb. case_ltb; [|done]. intros [= <- <- <-]. now right.
  - destruct (existsb _ (tl group)); [done|].
    rewrite Z.geb_leb. case_ltb.
    + intros [= <- <- <-]. now left.
    + apply IH.
Qed.

(** X8.  Every partition of the generator of [df_by_group] but the last
    reaches the size that was requested for it: [requested_size <=
    actual_size]. *)
Theorem df_by_group_reaches_request (by_ : GroupBy) dfs sizes :
  Forall (fun p => requested_size p <= actual_size p)
         (removelast (partitions_by_group groupby by_ dfs sizes).1).
Proof.
  destruct (__validate_dfs_parameter dfs) as [e|] eqn:Hvalid.
  { rewrite (partitions_by_group_invalid _ _ _ _ _ Hvalid). constructor. }
  rewrite (partitions_by_group_primed _ _ _ _ Hvalid).
  apply send_all_removelast.
  intros [by' dfs' st] size actual p g' Hsend. cbn [requested_size actual_size].
  assert (Hcases : size <= actual \/ group_state_of g' = GroupAtTail).
  { revert Hsend. unfold df_by_group_send.
    cbn [group_by group_dfs group_state_of].
    destruct st; try done; apply df_by_group_loop_reaches. }
  destruct Hcases as [Hle|Htail]; [now left|right].
  intros [|size' rest]; [done|].
  destruct g' as [by'' dfs'' st'']. cbn in Htail. subst st''. done.
Qed.

(** X9.  On dataframes that pass the validation, once more sizes were sent
    than there are zipped groups plus one, the stream of the generator of
    [df_by_group] has ended when every group has the same number of rows in
    every dataframe, and has raised the [ValueError] about group sizes
    otherwise. *)
Theorem df_by_group_ends (n : nat) (by_ : GroupBy) dfs sizes :
  co_partitioned n dfs ->
  (length (zipped_groups groupby by_ dfs) + 1 < length sizes)%nat ->
  let r := partitions_by_group groupby by_ dfs sizes in
  (Forall uniform_group (zipped_groups groupby by_ dfs) -> r.2 = Exhausted) /\
  (~ Forall uniform_group (zipped_groups groupby by_ dfs) ->
   r.2 = Failed (ValueError "all dataframe group sizes should be identical.")).
Proof.
  intros Hco Hmany r. subst r.
  destruct (co_partitioned_valid _ _ Hco) as [Hvalid _].
  destruct (partitions_by_group_runs by_ dfs sizes Hvalid)
    as ((runs & leftover & Hgroups & Hmade & Hleft) & Hfail & Hpending).
  specialize (Hpending Hmany).
  destruct (partitions_by_group groupby by_ dfs sizes).2 as [| |e] eqn:Hend.
  - split; [done|]. intros Hnot. exfalso. apply Hnot.
    destruct (Hleft eq_refl) as [Hu _]. rewrite Hgroups.
    apply Forall_app. split; [|done]. apply (made_of_uniform _ _ _ Hmade).
  - done.
  - destruct (Hfail e eq_refl) as [-> Hnot]. split; [|done].
    intros Hall. done.
Qed.


End GroupMore.

Section ValidationMore.
Import Dataframe.
Context {Row : Type}.
Implicit Types (dfs : list (value Row)).

(** X18.  [__validate_dfs_parameter] accepts exactly the inputs made of at
    least one dataframe, all of them dataframes with the same number of
    rows. *)
Theorem validation_accepts_co_partitioned dfs :
  __validate_dfs_parameter dfs = None <-> exists n, co_partitioned n dfs.
Proof.
  split; [|intros [n Hco]; now destruct (co_partitioned_valid _ _ Hco)].
  unfold __validate_dfs_parameter.
  destruct (Z.ltb_spec (Z.of_nat (length dfs)) 1) as [|Hlen]; [done|].
  destruct (existsb _ dfs) eqn:Hinst; [done|].
  destruct (existsb _ (tl dfs)) eqn:Hrows; [done|]. intros _.
  apply not_true_iff_false in Hinst, Hrows.
  destruct dfs as [|df rest]; [cbn in Hlen; lia|].
  assert (Hdata : forall v, v ∈ df :: rest -> exists rows, v = DataFrame rows).
  { intros [rows|] Hv; [eauto|]. exfalso. apply Hinst, existsb_exists.
    exists NotDataFrame. split; [now apply list_elem_of_In|done]. }
  destruct (Hdata df) as [rows0 ->]; [apply list_elem_of_here|].
  exists (length rows0). split; [done|].
  apply Forall_forall. intros v Hv.
  destruct (Hdata v Hv) as [rows ->]. exists rows. split; [done|].
  apply elem_of_cons in Hv as [[= ->]|Hv]; [done|].
  destruct (decide (length rows = length rows0)) as [|Hne]; [done|].
  exfalso. apply Hrows, existsb_exists. exists (DataFrame rows).
  split; [now apply list_elem_of_In|].
  cbn [hd shape0]. apply negb_true_iff, Z.eqb_neq. lia.
Qed.

End ValidationMore.

(** * Further properties of the controller *)

Section ControllerMore.
Import ParallelFunction Task.
Context {V R Estimator Backend : Type}.
Context {Combine Split PartitionWith NamedArguments Generator Preloaded : Type}.
Variable __file__ : string.
Variable allows_nested_tasks : Backend -> bool.
Variable multiple_arguments : list string -> PartitionWith -> Split.
Variable assign : FunctionSignature -> Args V -> exception + NamedArguments.
Variable call_split :
  Split -> NamedArguments -> exception + (NamedArguments * Generator).
Variable preload_value : Backend -> NamedArguments -> exception + Preloaded.
Variable scatter_gather :
  ParallelFunction V R Estimator Combine Split ->
  Backend -> option Backend -> Preloaded -> Generator ->
  option location ->
  option (size_argument V) -> option (size_argument V) ->
  list Estimator -> list Estimator * list log_record * outcome R.
Context {Trace : Type}.
Variable merge : NamedArguments -> NamedArguments -> exception + NamedArguments.
Variable var_args : NamedArguments -> list V.
Variable as_args_kwargs : NamedArguments -> Args V.

Abbreviation init' := (__init__ multiple_arguments).
Abbreviation call' :=
  (__call__ __file__ allows_nested_tasks assign call_split preload_value
            scatter_gather).

Implicit Types (a : InitArguments V R Estimator Combine Split PartitionWith).
Implicit Types (self : ParallelFunction V R Estimator Combine Split).
Implicit Types (h : list Estimator) (signature : FunctionSignature).

Lemma ParameterKind_eqb_eq (k1 k2 : ParameterKind) :
  ParameterKind_eqb k1 k2 = true <-> k1 = k2.
Proof using Type. destruct k1, k2; cbn; split; congruence. Qed.

Lemma supported_signature_validate signature :
  _validate_function_signature signature = None <->
  supported_signature signature.
Proof using Type.
  unfold _validate_function_signature, supported_signature.
  destruct (has_var_arg signature), (has_var_kwarg signature); cbn [orb];
    try (split; auto; fail).
  destruct (existsb _ (args signature)) eqn:Hexists.
  - split; [done|]. intros [?|[?|Hall]]; try done.
    apply existsb_exists in Hexists as (arg & Harg & Hkind).
    apply ParameterKind_eqb_eq in Hkind.
    rewrite Forall_forall in Hall. now apply list_elem_of_In, Hall in Harg.
  - split; [|done]. intros _. right; right.
    apply Forall_forall. intros arg Harg Hkind.
    apply not_true_iff_false in Hexists. apply Hexists, existsb_exists.
    exists arg. split; [now apply list_elem_of_In|].
    now apply ParameterKind_eqb_eq.
Qed.

(** The object [__init__] builds, and the store it leaves. *)
Lemma __init___builds a h h' self :
  init' a h = (h', inr self) ->
  accepted a /\
  function self = init_function a /\
  initial_partition_size self = size_kept a (init_initial_partition_size a) /\
  fixed_partition_size self = size_kept a (init_fixed_partition_size a) /\
  (h', _partition_size_estimator self) =
    match init_fixed_partition_size a with
    | None => (h ++ [init_partition_size_estimator_factory a tt],
               Some (length h))
    | Some _ => (h, None)
    end.
Proof using Type.
  clear __file__ allows_nested_tasks assign call_split preload_value
        scatter_gather merge var_args as_args_kwargs.
  unfold accepted, size_kept, partition_on_names.
  rewrite <- supported_signature_validate.
  unfold __init__, allocate, _partition_size_validator.
  destruct (init_partition_on a) as [partition_on|],
           (init_partition_with a) as [partition_with|],
           (init_split a) as [split|],
           (init_initial_partition_size a) as [[n|f|]|],
           (init_fixed_partition_size a) as [[n'|f'|]|],
           (_validate_function_signature _) as [e|];
    cbn; try done; intros [= <- <-]; cbn;
    intuition congruence.
Qed.

Lemma __init___accepts a h :
  accepted a -> exists h' self, init' a h = (h', inr self).
Proof using Type.
  clear __file__ allows_nested_tasks assign call_split preload_value
        scatter_gather merge var_args as_args_kwargs.
  unfold accepted. rewrite <- supported_signature_validate.
  unfold __init__, allocate, _partition_size_validator.
  intros (Hboth & Hsplit & Hinitial & Hfixed & Hone & Hsig). rewrite Hsig.
  destruct (init_partition_on a) as [partition_on|],
           (init_partition_with a) as [partition_with|],
           (init_split a) as [split|],
           (init_initial_partition_size a) as [[n|f|]|],
           (init_fixed_partition_size a) as [[n'|f'|]|];
    cbn in *; try done; eauto; exfalso; intuition congruence.
Qed.

(** X10.  [__init__] builds an object exactly when [partition_on] and
    [partition_with] are given together or not at all, [split] is not given
    with them, each size option is None, an integer or a callable, at most
    one size option is given, and the function either has a variadic
    parameter or no positional-only parameter. *)
Theorem constructor_accepts a h :
  (exists h' self, init' a h = (h', inr self)) <-> accepted a.
Proof using Type.
  split.
  - intros (h' & self & Hinit).
    now destruct (__init___builds _ _ _ _ Hinit) as [Haccepted _].
  - apply __init___accepts.
Qed.

(** X11.  When [fixed_partition_size] is given, the object [__init__]
    builds has no estimator and the store is left as it was: the factory is
    not called. *)
Theorem no_estimator_with_fixed_size a h h' self
    (fixed : size_argument V) :
  init_fixed_partition_size a = Some fixed ->
  init' a h = (h', inr self) ->
  h' = h /\ _partition_size_estimator self = None /\
  fixed_partition_size self <> None /\ initial_partition_size self = None.
Proof using Type.
  intros Hfixed Hinit.
  destruct (__init___builds _ _ _ _ Hinit)
    as (Haccepted & _ & Hi & Hf & Hstore).
  rewrite Hfixed in Hstore. injection Hstore as -> ->.
  destruct Haccepted as (_ & _ & _ & _ & [Hnone|Hnone] & _); [|congruence].
  rewrite Hi, Hf, Hnone, Hfixed. unfold size_kept.
  destruct (init_partition_on a), fixed; cbn; repeat split; congruence.
Qed.

Lemma user_partition_size_resolved (size : option (size_argument V))
    (args : Args V) (size' : option (size_argument V)) :
  valid_size size ->
  user_partition_size size args = Returned size' ->
  resolved size' /\ (size' = None <-> size = None).
Proof using Type.
  unfold resolved. destruct size as [[n|f|]|]; cbn; try done.
  - intros _ [= <-]. split; [eauto|done].
  - intros _. destruct (f args); [|done]. intros [= <-]. split; [eauto|done].
  - intros _ [= <-]. split; [eauto|done].
Qed.

Lemma valid_size_kept a (size : option (size_argument V)) :
  (valid_size (size_kept a size) <-> valid_size size) /\
  (size_kept a size = None <-> size = None).
Proof using Type.
  unfold size_kept.
  destruct (init_partition_on a), size as [[| |]|]; cbn; split; split; done.
Qed.

(** X12.  For an object built by [__init__], the sizes
    [_get_user_partition_sizes] returns are integers or None, never
    callables, and at most one of the two is not None. *)
Theorem user_partition_sizes_resolved a h h' self (args : Args V)
    (initial fixed : option (size_argument V)) :
  init' a h = (h', inr self) ->
  _get_user_partition_sizes self args = Returned (initial, fixed) ->
  resolved initial /\ resolved fixed /\ (initial = None \/ fixed = None).
Proof using Type.
  intros Hinit Hsizes.
  destruct (__init___builds _ _ _ _ Hinit)
    as (Haccepted & _ & Hi & Hf & _).
  destruct Haccepted as (_ & _ & Hvi & Hvf & Hone & _).
  apply (valid_size_kept a) in Hvi, Hvf.
  rewrite <- Hi in Hvi. rewrite <- Hf in Hvf.
  revert Hsizes. unfold _get_user_partition_sizes.
  destruct (user_partition_size (initial_partition_size self) args)
    as [initial'|] eqn:Hinitial; [|done].
  destruct (user_partition_size (fixed_partition_size self) args)
    as [fixed'|] eqn:Hfixed; [|done].
  intros [= <- <-].
  destruct (user_partition_size_resolved _ _ _ Hvi Hinitial) as [Hri Hni].
  destruct (user_partition_size_resolved _ _ _ Hvf Hfixed) as [Hrf Hnf].
  split; [done|]. split; [done|].
  rewrite Hni, Hnf, Hi, Hf.
  destruct Hone as [Hnone|Hnone]; [left|right];
    now apply (valid_size_kept a).
Qed.

(** X13.  [is_nested_parallelism] answers True exactly when some frame of
    the stack is named [apply_function] and belongs to this file; a frame of
    that name from another file, or another function of this file, does not
    count. *)
Theorem nested_parallelism_detected (frames : list Frame) :
  is_nested_parallelism __file__ frames = true <->
  exists frame, frame ∈ frames /\
                co_name frame = "apply_function" /\
                co_filename frame = __file__.
Proof using Type.
  induction frames as [|f frames IH]; cbn [is_nested_parallelism].
  - split; [done|]. intros (frame & Hin & _). now apply not_elem_of_nil in Hin.
  - assert (Hrest :
      (exists frame, frame ∈ frames /\ co_name frame = "apply_function" /\
                     co_filename frame = __file__) ->
      exists frame, frame ∈ f :: frames /\ co_name frame = "apply_function" /\
                    co_filename frame = __file__).
    { intros (frame & Hin & ?). exists frame.
      split; [now apply list_elem_of_further|done]. }
    destruct (String.eqb_spec (co_name f) "apply_function") as [Hname|Hname],
             (String.eqb_spec (co_filename f) __file__) as [Hfile|Hfile];
      cbn [andb].
    + split; [|done]. intros _. exists f. split; [apply list_elem_of_here|done].
    + rewrite IH. split; [done|]. intros (frame & Hin & Hn & Hf).
      apply elem_of_cons in Hin as [->|Hin]; [done|eauto].
    + rewrite IH. split; [done|]. intros (frame & Hin & Hn & Hf).
      apply elem_of_cons in Hin as [->|Hin]; [done|eauto].
    + rewrite IH. split; [done|]. intros (frame & Hin & Hn & Hf).
      apply elem_of_cons in Hin as [->|Hin]; [done|eauto].
Qed.

Lemma is_nested_parallelism_found (frames : list Frame) frame :
  frame ∈ frames -> co_name frame = "apply_function" ->
  co_filename frame = __file__ ->
  is_nested_parallelism __file__ frames = true.
Proof using Type.
  intros Hin Hname Hfile.
  induction frames as [|f frames IH]; [now apply not_elem_of_nil in Hin|].
  cbn [is_nested_parallelism].
  apply elem_of_cons in Hin as [<-|Hin].
  - now rewrite Hname, Hfile, !String.eqb_refl.
  - rewrite (IH Hin). now destruct (_ && _).
Qed.

(** The branch of [__call__] that works with the backend. *)
Lemma __call___with_backend self env (args : Args V) h backend :
  parallel_backend env = Some backend ->
  is_nested_parallelism __file__ (callers env) = false \/
  allows_nested_tasks backend = true ->
  call' self env args h =
    match assign (_function_signature self) args with
    | inl e => (h, [], Raised e)
    | inr named_args =>
        match
          match split self with
          | Some split => call_split split named_args
          | None => inl (TypeError "'NoneType' object is not callable")
          end
        with
        | inl e => (h, [], Raised e)
        | inr (non_partitioned_args, partition_generator) =>
            match preload_value backend non_partitioned_args with
            | inl e => (h, [], Raised e)
            | inr preloaded =>
                match _get_user_partition_sizes self args with
                | Raised e => (h, [], Raised e)
                | Returned (initial, fixed) =>
                    scatter_gather self backend
                      (if allows_nested_tasks backend then Some backend else None)
                      preloaded partition_generator
                      (_partition_size_estimator self) initial fixed h
                end
            end
        end
    end.
Proof using Type.
  intros Hbackend Hparallel. unfold __call__. rewrite Hbackend.
  cbn [is_nested_parallelism co_name co_filename String.eqb Ascii.eqb
       Bool.eqb andb].
  assert (Hbranch : is_nested_parallelism __file__ (callers env) &&
                    negb (allows_nested_tasks backend) = false).
  { destruct Hparallel as [-> | ->]; [done|]. now rewrite andb_false_r. }
  now rewrite Hbranch.
Qed.

Lemma legacy_size_positional (partition_on : list string)
    (f : Args V -> outcome Z) (args : Args V) :
  positional args <> [] ->
  exists msg,
    user_partition_size
      (_legacy_partition_size partition_on (Some (SizeCallable f))) args
    = Raised (TypeError msg).
Proof using Type.
  intros Hpositional. cbn. destruct (positional args); [done|]. eauto.
Qed.

(** X14.  With the legacy [partition_on] API and a callable size option,
    calling the parallel function with a positional argument raises a
    [TypeError] once the backend session is reached: the wrapped callable
    takes keyword arguments only.  The store is left as it was. *)
Theorem legacy_size_needs_keywords a h h' self env (args : Args V) h1
    partition_on (f : Args V -> outcome Z) backend
    named_args non_partitioned_args partition_generator preloaded split' :
  init' a h = (h', inr self) ->
  init_partition_on a = Some partition_on ->
  init_initial_partition_size a = Some (SizeCallable f) \/
  init_fixed_partition_size a = Some (SizeCallable f) ->
  positional args <> [] ->
  parallel_backend env = Some backend ->
  is_nested_parallelism __file__ (callers env) = false ->
  assign (_function_signature self) args = inr named_args ->
  split self = Some split' ->
  call_split split' named_args
    = inr (non_partitioned_args, partition_generator) ->
  preload_value backend non_partitioned_args = inr preloaded ->
  exists msg, call' self env args h1 = (h1, [], Raised (TypeError msg)).
Proof using Type.
  intros Hinit Hon Hcallable Hpositional Hbackend Hnested Hassign Hsplit
    Hcall Hpreload.
  rewrite (__call___with_backend self env args h1 backend Hbackend
             (or_introl Hnested)).
  rewrite Hassign, Hsplit, Hcall, Hpreload.
  destruct (__init___builds _ _ _ _ Hinit)
    as (Haccepted & _ & Hi & Hf & _).
  destruct Haccepted as (_ & _ & _ & _ & Hone & _).
  unfold size_kept in Hi, Hf. rewrite Hon in Hi, Hf.
  unfold _get_user_partition_sizes. rewrite Hi, Hf.
  destruct Hcallable as [Hc|Hc]; rewrite Hc in *.
  - destruct (legacy_size_positional (partition_on_names partition_on) f args
                Hpositional) as [msg ->]. eauto.
  - destruct Hone as [->|?]; [|done]. cbn [_legacy_partition_size user_partition_size].
    destruct (legacy_size_positional (partition_on_names partition_on) f args
                Hpositional) as [msg Hraise].
    cbn [_legacy_partition_size user_partition_size] in Hraise.
    destruct (positional args); [done|]. eauto.
Qed.

(** X15.  With the legacy [partition_on] API and a callable
    [initial_partition_size], a call with keyword arguments only gives the
    callable the values of the [partition_on] names, in that order, as
    positional arguments, and its result is the initial size; when one of
    the names is not among the keyword arguments, a [KeyError] is
    raised. *)
Theorem legacy_size_receives_partition_on a h h' self partition_on
    (f : Args V -> outcome Z) (kwargs : list (string * V)) :
  init' a h = (h', inr self) ->
  init_partition_on a = Some partition_on ->
  init_initial_partition_size a = Some (SizeCallable f) ->
  let args := {| positional := []; keywords := kwargs |} in
  (forall values,
      mapM (lookup_keyword kwargs) (partition_on_names partition_on)
        = Some values ->
      _get_user_partition_sizes self args =
        match f {| positional := values; keywords := [] |} with
        | Returned n => Returned (Some (SizeInt n), None)
        | Raised e => Raised e
        end) /\
  ((exists arg_name, arg_name ∈ partition_on_names partition_on /\
                     lookup_keyword kwargs arg_name = None) ->
   exists msg, _get_user_partition_sizes self args = Raised (KeyError msg)).
Proof using Type.
  intros Hinit Hon Hcallable args.
  destruct (__init___builds _ _ _ _ Hinit)
    as (Haccepted & _ & Hi & Hf & _).
  destruct Haccepted as (_ & _ & _ & _ & Hone & _).
  destruct Hone as [Hnone|Hnone]; [congruence|].
  unfold size_kept in Hi, Hf. rewrite Hon in Hi, Hf.
  rewrite Hcallable in Hi. rewrite Hnone in Hf.
  unfold _get_user_partition_sizes. rewrite Hi, Hf.
  cbn [_legacy_partition_size user_partition_size positional keywords args].
  split.
  - intros values ->. now destruct (f _).
  - intros (arg_name & Hin & Hmissing).
    assert (Hnone' : mapM (lookup_keyword kwargs)
                       (partition_on_names partition_on) = None).
    { apply mapM_None, Exists_exists. eauto. }
    rewrite Hnone'. eauto.
Qed.

Lemma __call___nested self env (args : Args V) h :
  is_nested_parallelism __file__ (callers env) = true ->
  (forall backend, parallel_backend env = Some backend ->
                   allows_nested_tasks backend = false) ->
  call' self env args h =
    (h,
     [Debug ("backend does not support nested parallelism. Running " +:+
             fn_name (function self) +:+ " sequentially.")],
     fn_call (function self) args).
Proof using Type.
  intros Hnested Hbackend. unfold __call__.
  cbn [is_nested_parallelism co_name co_filename String.eqb Ascii.eqb
       Bool.eqb andb].
  rewrite Hnested.
  destruct (parallel_backend env) as [backend|]; [|done].
  now rewrite (Hbackend backend).
Qed.

(** X16.  A parallel function called from inside a task, at any depth below
    [apply_function], runs sequentially when the task was given no backend
    and the worker has no ambient backend or one that does not allow nested
    tasks: the task returns what the bare function returns, with the trace
    it was given, and the store is left as it was. *)
Theorem nested_call_in_task_is_sequential
    (inner : ParallelFunction V R Estimator Combine Split)
    (frames : list Frame) (prepare : Args V -> Args V)
    (non_partitioned_args partitioned_args merged_args : NamedArguments)
    (trace : Trace) (env : Ambient Backend) h :
  merge non_partitioned_args partitioned_args = inr merged_args ->
  var_args non_partitioned_args = [] ->
  (forall backend, parallel_backend env = Some backend ->
                   allows_nested_tasks backend = false) ->
  apply_function __file__ merge var_args as_args_kwargs
    (fun inside args h =>
       call' inner
         {| parallel_backend := parallel_backend inside;
            callers := frames ++ callers inside |} (prepare args) h)
    non_partitioned_args (partitioned_args, trace) None env h
  = task_result trace
      (h,
       [Debug ("backend does not support nested parallelism. Running " +:+
               fn_name (function inner) +:+ " sequentially.")],
       fn_call (function inner) (prepare (as_args_kwargs merged_args))).
Proof using Type.
  intros Hmerge Hvar Hbackend. unfold apply_function.
  rewrite Hmerge, Hvar. cbn [length Nat.eqb negb].
  rewrite __call___nested; [done| |done].
  cbn [callers].
  apply (is_nested_parallelism_found _
           {| co_name := "apply_function"; co_filename := __file__ |});
    [|done|done].
  apply elem_of_app. right. apply list_elem_of_here.
Qed.

(** X17.  When the task was given a backend that allows nested tasks, a
    parallel function called from inside the task does not fall back: once
    its arguments are bound, split and preloaded and its sizes resolved, it
    runs its session on that backend, which it hands on to its own tasks. *)
Theorem nested_call_in_task_is_parallel
    (inner : ParallelFunction V R Estimator Combine Split)
    (frames : list Frame) (prepare : Args V -> Args V)
    (non_partitioned_args partitioned_args merged_args : NamedArguments)
    (trace : Trace) (env : Ambient Backend) h (backend : Backend)
    named_args split' inner_non_partitioned partition_generator preloaded
    initial fixed :
  merge non_partitioned_args partitioned_args = inr merged_args ->
  var_args non_partitioned_args = [] ->
  allows_nested_tasks backend = true ->
  let args := prepare (as_args_kwargs merged_args) in
  assign (_function_signature inner) args = inr named_args ->
  split inner = Some split' ->
  call_split split' named_args
    = inr (inner_non_partitioned, partition_generator) ->
  preload_value backend inner_non_partitioned = inr preloaded ->
  _get_user_partition_sizes inner args = Returned (initial, fixed) ->
  apply_function __file__ merge var_args as_args_kwargs
    (fun inside args h =>
       call' inner
         {| parallel_backend := parallel_backend inside;
            callers := frames ++ callers inside |} (prepare args) h)
    non_partitioned_args (partitioned_args, trace) (Some backend) env h
  = task_result trace
      (scatter_gather inner backend (Some backend) preloaded
         partition_generator (_partition_size_estimator inner)
         initial fixed h).
Proof using Type.
  intros Hmerge Hvar Hallows args Hassign Hsplit Hcall Hpreload Hsizes.
  unfold apply_function. rewrite Hmerge, Hvar. cbn [length Nat.eqb negb].
  rewrite (__call___with_backend inner _ _ h backend);
    [|done|now right].
  fold args. rewrite Hassign, Hsplit, Hcall, Hpreload, Hsizes, Hallows.
  done.
Qed.

End ControllerMore.

(** * The further properties on concrete inputs *)

Lemma seven_rows_co_partitioned :
  Dataframe.co_partitioned 7 [Dataframe.seven_rows; Dataframe.seven_squares].
Proof.
  split; [discriminate|].
  repeat (constructor; [eexists; split; reflexivity|]). constructor.
Defined.

Lemma two_keys_co_partitioned :
  Dataframe.co_partitioned 3
    [Examples.three_rows_two_keys; Examples.one_row_one_key].
Proof.
  split; [discriminate|].
  repeat (constructor; [eexists; split; reflexivity|]). constructor.
Defined.

(** X2 on the two dataframes of seven rows. *)
Lemma df_by_row_co_partition_witness :
  let dfs := [Dataframe.seven_rows; Dataframe.seven_squares] in
  Dataframe.co_partitioned 7 dfs /\
  Forall (fun size => 0 < size) [3; 1; 2; 5] /\
  Forall (Streams.co_partition dfs)
         (Dataframe.partitions_by_row dfs [3; 1; 2; 5]).1.
Proof.
  intros dfs.
  assert (Hsizes : Forall (fun size => 0 < size) [3; 1; 2; 5]).
  { repeat constructor. }
  split; [exact seven_rows_co_partitioned|]. split; [exact Hsizes|].
  exact (df_by_row_co_partition 7 dfs [3; 1; 2; 5]
           seven_rows_co_partitioned Hsizes).
Defined.

(** X3: seven rows by three make three partitions. *)
Lemma df_by_row_partition_count_witness :
  let dfs := [Dataframe.seven_rows; Dataframe.seven_squares] in
  Dataframe.co_partitioned 7 dfs /\ 1 <= 3 /\ (7 < 8)%nat /\
  Z.of_nat (length (Dataframe.partitions_by_row dfs (replicate 8 3)).1)
  = (Z.of_nat 7 + 3 - 1) / 3.
Proof.
  intros dfs.
  assert (Hk : 1 <= 3) by lia. assert (Hcount : (7 < 8)%nat) by lia.
  split; [exact seven_rows_co_partitioned|]. split; [exact Hk|].
  split; [exact Hcount|].
  exact (df_by_row_partition_count 7 dfs 3 8 seven_rows_co_partitioned
           Hk Hcount).
Defined.

(** X4 on the two dataframes of seven rows. *)
Lemma df_by_row_zero_requests_witness :
  let dfs := [Dataframe.seven_rows; Dataframe.seven_squares] in
  Dataframe.co_partitioned 7 dfs /\ (1 <= 7)%nat /\
  Dataframe.partitions_by_row dfs (replicate 4 0)
  = (replicate 4 (Partition 0 0 (Dataframe.dfs_chunk dfs 0 0)), Pending) /\
  Forall (fun df => df = Dataframe.DataFrame []) (Dataframe.dfs_chunk dfs 0 0).
Proof.
  intros dfs. assert (Hn : (1 <= 7)%nat) by lia.
  split; [exact seven_rows_co_partitioned|]. split; [exact Hn|].
  exact (df_by_row_zero_requests 7 dfs 4 seven_rows_co_partitioned Hn).
Defined.

(** X7 on a dataframe grouped by its key, partitioned with itself. *)
Lemma df_by_group_cover_witness :
  let dfs := [Examples.three_rows_two_keys; Examples.three_rows_two_keys] in
  let r := Dataframe.partitions_by_group Dataframe.groupby_key tt dfs [2; 2; 2] in
  let groups := Streams.zipped_groups Dataframe.groupby_key tt dfs in
  r.2 = Exhausted /\
  Forall Streams.uniform_group groups /\
  Dataframe.total_actual_size r.1 = Streams.rows_in groups /\
  forall j, (j < length dfs)%nat ->
    concat (Dataframe.rows_of <$> Dataframe.column j r.1)
    = concat (Dataframe.rows_of <$>
                ((fun group => nth j group Dataframe.NotDataFrame) <$> groups)).
Proof.
  intros dfs r groups.
  assert (Hex : r.2 = Exhausted) by reflexivity.
  split; [exact Hex|].
  exact (df_by_group_cover Dataframe.groupby_key tt dfs [2; 2; 2] Hex).
Defined.

(** X9 on two dataframes whose groups of key 1 have two rows and one row. *)
Lemma df_by_group_ends_witness :
  let dfs := [Examples.three_rows_two_keys; Examples.one_row_one_key] in
  let groups := Streams.zipped_groups Dataframe.groupby_key tt dfs in
  let r := Dataframe.partitions_by_group Dataframe.groupby_key tt dfs
             [2; 2; 2; 2] in
  Dataframe.co_partitioned 3 dfs /\
  (length groups + 1 < length [2; 2; 2; 2])%nat /\
  (Forall Streams.uniform_group groups -> r.2 = Exhausted) /\
  (~ Forall Streams.uniform_group groups ->
   r.2 = Failed (ValueError "all dataframe group sizes should be identical.")).
Proof.
  intros dfs groups r.
  assert (Hmany : (length groups + 1 < length [2; 2; 2; 2])%nat).
  { vm_compute. lia. }
  split; [exact two_keys_co_partitioned|]. split; [exact Hmany|].
  exact (df_by_group_ends Dataframe.groupby_key 3 tt dfs [2; 2; 2; 2]
           two_keys_co_partitioned Hmany).
Defined.

(** X11 on [fixed_partition_size=10]. *)
Lemma no_estimator_with_fixed_size_witness :
  let a := ParallelFunction.init_arguments ParallelFunction.total None
             (Some (ParallelFunction.SizeInt 10)) in
  ParallelFunction.init_fixed_partition_size a
    = Some (ParallelFunction.SizeInt 10) /\
  ParallelFunction.example_init a [] = ([], inr Examples.fixed_total) /\
  ParallelFunction._partition_size_estimator Examples.fixed_total = None /\
  ParallelFunction.fixed_partition_size Examples.fixed_total <> None /\
  ParallelFunction.initial_partition_size Examples.fixed_total = None.
Proof.
  intros a.
  assert (Hfixed : ParallelFunction.init_fixed_partition_size a
            = Some (ParallelFunction.SizeInt 10)) by reflexivity.
  assert (Hinit : ParallelFunction.example_init a []
            = ([], inr Examples.fixed_total)) by reflexivity.
  split; [exact Hfixed|]. split; [exact Hinit|].
  exact (proj2 (no_estimator_with_fixed_size (fun _ _ => tt) a [] []
                  Examples.fixed_total _ Hfixed Hinit)).
Defined.

(** X12 on the object built with a callable initial size, called with the
    keyword [x=4]. *)
Lemma user_partition_sizes_resolved_witness :
  let args := {| ParallelFunction.positional := [];
                 ParallelFunction.keywords := [("x", 4)] |} in
  let initial : option (ParallelFunction.size_argument Z) :=
    Some (ParallelFunction.SizeInt 5) in
  let fixed : option (ParallelFunction.size_argument Z) := None in
  ParallelFunction.example_init Examples.legacy_arguments []
    = ([[]], inr Examples.legacy_twice) /\
  ParallelFunction._get_user_partition_sizes Examples.legacy_twice args
    = Returned (initial, fixed) /\
  Task.resolved initial /\ Task.resolved fixed /\
  (initial = None \/ fixed = None).
Proof.
  intros args initial fixed.
  assert (Hinit : ParallelFunction.example_init Examples.legacy_arguments []
            = ([[]], inr Examples.legacy_twice)) by reflexivity.
  assert (Hsizes :
    ParallelFunction._get_user_partition_sizes Examples.legacy_twice args
    = Returned (initial, fixed)) by reflexivity.
  split; [exact Hinit|]. split; [exact Hsizes|].
  exact (user_partition_sizes_resolved (fun _ _ => tt)
           Examples.legacy_arguments [] [[]] Examples.legacy_twice args
           initial fixed Hinit Hsizes).
Defined.

(** X14 on the same object, called as [twice(5, 6, 7)]. *)
Lemma legacy_size_needs_keywords_witness :
  exists msg,
    ParallelFunction.example_call Examples.legacy_twice
      ParallelFunction.on_the_client ParallelFunction.three_values [[]]
    = ([[]], [], Raised (TypeError msg)).
Proof.
  apply (legacy_size_needs_keywords
           ParallelFunction.module_file (fun backend : bool => backend)
           (fun _ _ => tt) ParallelFunction.pass_arguments
           ParallelFunction.split_each_value
           ParallelFunction.preload_arguments
           ParallelFunction.observing_session
           Examples.legacy_arguments [] [[]] Examples.legacy_twice
           ParallelFunction.on_the_client ParallelFunction.three_values [[]]
           (inl "x") Examples.one_more false
           ParallelFunction.three_values
           {| ParallelFunction.positional := [];
              ParallelFunction.keywords := [] |}
           [[5]; [6]; [7]]
           {| ParallelFunction.positional := [];
              ParallelFunction.keywords := [] |}
           tt);
    try reflexivity.
  - left. reflexivity.
  - discriminate.
Defined.

(** X15 on the same object: [x=4] gives the callable the value 4; without
    [x] a [KeyError] is raised. *)
Lemma legacy_size_receives_partition_on_witness :
  (forall values,
      mapM (ParallelFunction.lookup_keyword [("x", 4)])
           (Task.partition_on_names (inl "x")) = Some values ->
      ParallelFunction._get_user_partition_sizes Examples.legacy_twice
        {| ParallelFunction.positional := [];
           ParallelFunction.keywords := [("x", 4)] |}
      = match Examples.one_more
                {| ParallelFunction.positional := values;
                   ParallelFunction.keywords := [] |} with
        | Returned n => Returned (Some (ParallelFunction.SizeInt n), None)
        | Raised e => Raised e
        end) /\
  exists msg,
    ParallelFunction._get_user_partition_sizes Examples.legacy_twice
      {| ParallelFunction.positional := [];
         ParallelFunction.keywords := [("y", 4)] |}
    = Raised (KeyError msg).
Proof.
  assert (Hinit : ParallelFunction.example_init Examples.legacy_arguments []
            = ([[]], inr Examples.legacy_twice)) by reflexivity.
  split.
  - exact (proj1 (legacy_size_receives_partition_on (fun _ _ => tt)
                    Examples.legacy_arguments [] [[]] Examples.legacy_twice
                    (inl "x") Examples.one_more [("x", 4)]
                    Hinit eq_refl eq_refl)).
  - apply (proj2 (legacy_size_receives_partition_on (fun _ _ => tt)
                    Examples.legacy_arguments [] [[]] Examples.legacy_twice
                    (inl "x") Examples.one_more [("y", 4)]
                    Hinit eq_refl eq_refl)).
    exists "x". split; [apply list_elem_of_here|reflexivity].
Defined.

(** X16 on [total] called by the function of a task on a worker without
    backend. *)
Lemma nested_call_in_task_is_sequential_witness :
  Examples.merge_arguments Examples.no_arguments ParallelFunction.three_values
    = inr ParallelFunction.three_values /\
  ParallelFunction.positional Examples.no_arguments = [] /\
  (forall backend : bool,
      ParallelFunction.parallel_backend Examples.on_a_worker = Some backend ->
      backend = false) /\
  Examples.example_apply_function Examples.call_total_inside
    Examples.no_arguments (ParallelFunction.three_values, 7%nat) None
    Examples.on_a_worker [[]]
  = ([[]],
     [Debug "backend does not support nested parallelism. Running total sequentially."],
     inr (18, 7%nat)).
Proof.
  assert (Hbackend : forall backend : bool,
      ParallelFunction.parallel_backend Examples.on_a_worker = Some backend ->
      backend = false) by discriminate.
  split; [reflexivity|]. split; [reflexivity|]. split; [exact Hbackend|].
  exact (nested_call_in_task_is_sequential
           ParallelFunction.module_file (fun backend : bool => backend)
           ParallelFunction.pass_arguments ParallelFunction.split_each_value
           ParallelFunction.preload_arguments ParallelFunction.observing_session
           Examples.merge_arguments ParallelFunction.positional
           (fun merged => merged)
           ParallelFunction.parallel_total Examples.user_frames
           (fun args => args)
           Examples.no_arguments ParallelFunction.three_values
           ParallelFunction.three_values 7%nat Examples.on_a_worker [[]]
           eq_refl eq_refl Hbackend).
Defined.

(** X17 on [total] called by the function of a task that was given a
    backend with nested tasks. *)
Lemma nested_call_in_task_is_parallel_witness :
  Examples.example_apply_function Examples.call_total_inside
    Examples.no_arguments (ParallelFunction.three_values, 7%nat) (Some true)
    Examples.on_a_worker [[]]
  = Task.task_result 7%nat
      (ParallelFunction.observing_session ParallelFunction.parallel_total
         true (Some true)
         {| ParallelFunction.positional := [];
            ParallelFunction.keywords := [] |}
         [[5]; [6]; [7]] (Some 0%nat) None None [[]]).
Proof.
  exact (nested_call_in_task_is_parallel
           ParallelFunction.module_file (fun backend : bool => backend)
           ParallelFunction.pass_arguments ParallelFunction.split_each_value
           ParallelFunction.preload_arguments ParallelFunction.observing_session
           Examples.merge_arguments ParallelFunction.positional
           (fun merged => merged)
           ParallelFunction.parallel_total Examples.user_frames
           (fun args => args)
           Examples.no_arguments ParallelFunction.three_values
           ParallelFunction.three_values 7%nat Examples.on_a_worker [[]]
           true ParallelFunction.three_values tt
           {| ParallelFunction.positional := [];
              ParallelFunction.keywords := [] |}
           [[5]; [6]; [7]]
           {| ParallelFunction.positional := [];
              ParallelFunction.keywords := [] |}
           None None
           eq_refl eq_refl eq_refl eq_refl eq_refl eq_refl eq_refl eq_refl).
Defined.
